(** * auto-bilibili-recorder: the record/upload manager

    A shallow embedding of [record_upload_manager.py] (class
    [RecordUploadManager]) and the properties of its session registry, its
    upload workflow and its two worker loops.

    Conventions of the embedding:
    - Python objects that are shared and mutated ([Session]) live in a heap
      and are named by references; the registry [self.sessions] is an
      insertion-ordered dictionary from session ids to references.
    - [self.save.session_id_map] is a dictionary whose order is never
      observed: a [gmap].
    - Every method runs in a state-and-exception monad over [World]; the
      externally visible effects ([print], file writes, lock operations,
      queue puts, sleeps, cancellations) are also recorded, in order, in the
      ghost field [trace].
    - Calls that leave the process (the upload, the comment post, the two
      video generations) take their outcome from the environment. *)

From Stdlib Require Import ZArith QArith.
From stdpp Require Import base option list strings pretty gmap.

Open Scope string_scope.
Open Scope list_scope.
Open Scope Z_scope.

(** ** Python exceptions *)

Inductive exn : Type :=
| TypeError
| KeyError
| IndexError
| ValueError
| CancelledError         (* asyncio.CancelledError *)
| KeyboardInterrupt
| DanglingReference      (* a reference outside the heap: never raised from a well-formed world *)
| Exception (msg : string).

(** [isinstance(e, Exception)]. [asyncio.CancelledError] (since Python
    3.8) and [KeyboardInterrupt] derive from [BaseException] only: a clause
    [except Exception] does not catch them. *)
Definition is_Exception (e : exn) : bool :=
  match e with
  | CancelledError | KeyboardInterrupt => false
  | _ => true
  end.

Inductive Result (A : Type) : Type :=
| Ok (a : A)
| Exc (e : exn).
Arguments Ok {A} a.
Arguments Exc {A} e.

(** ** [datetime.datetime] and [datetime.timedelta]

    The part of CPython's [datetime] module that [handle_update] and
    [upload_video] use: the fields of a naive datetime, subtraction of two
    datetimes, and the normalised fields of the resulting timedelta. *)

Module Datetime.

Record t : Type := mk {
  year : Z; month : Z; day : Z;
  hour : Z; minute : Z; second : Z; microsecond : Z
}.

Definition _is_leap (y : Z) : bool :=
  (y mod 4 =? 0) && (negb (y mod 100 =? 0) || (y mod 400 =? 0)).

Definition _days_before_year (y : Z) : Z :=
  let y := y - 1 in y * 365 + y / 4 - y / 100 + y / 400.

Definition _DAYS_BEFORE_MONTH : list Z :=
  [-1; 0; 31; 59; 90; 120; 151; 181; 212; 243; 273; 304; 334].

Definition _days_before_month (y m : Z) : Z :=
  nth (Z.to_nat m) _DAYS_BEFORE_MONTH 0
  + (if (2 <? m) && _is_leap y then 1 else 0).

Definition toordinal (d : t) : Z :=
  _days_before_year (year d) + _days_before_month (year d) (month d) + day d.

End Datetime.

Module Timedelta.

Record t : Type := mk { days : Z; seconds : Z; microseconds : Z }.

(** [timedelta(days, seconds, microseconds)]: the constructor normalises
    so that [0 <= microseconds < 10^6] and [0 <= seconds < 86400]. *)
Definition make (d s us : Z) : t :=
  let s := s + us / 1000000 in
  let us := us mod 1000000 in
  let d := d + s / 86400 in
  let s := s mod 86400 in
  mk d s us.

End Timedelta.

(** [a - b] on two datetimes ([datetime.__sub__]). *)
Definition datetime_sub (a b : Datetime.t) : Timedelta.t :=
  let days1 := Datetime.toordinal a in
  let days2 := Datetime.toordinal b in
  let secs1 := Datetime.second a + Datetime.minute a * 60 + Datetime.hour a * 3600 in
  let secs2 := Datetime.second b + Datetime.minute b * 60 + Datetime.hour b * 3600 in
  Timedelta.make (days1 - days2) (secs1 - secs2)
                 (Datetime.microsecond a - Datetime.microsecond b).

(** [x - now] where [x] is an attribute that may still be [None]:
    [None - datetime] raises [TypeError]. *)
Definition py_sub (x : option Datetime.t) (y : Datetime.t) : Result Timedelta.t :=
  match x with
  | None => Exc TypeError
  | Some a => Ok (datetime_sub a y)
  end.

(** Python's true division of two integers, compared with [<]. The
    quotients compared here are those of integers below 86400 by 60, for which
    the comparison of the floating-point quotient with an integer agrees with
    the comparison of the exact quotient. *)
Definition Qltb (x y : Q) : bool := negb (Qle_bool y x).

Definition CONTINUE_SESSION_MINUTES : Z := 5.
Definition WAIT_SESSION_MINUTES : Z := 6.

(** ** The data classes

    [session.py], [upload_task.py], [comment_task.py], [task_save.py] and
    [recorder_config.py] are imported by the manager; the records below carry
    the attributes the manager reads and writes. *)

(** A reference to a [Session] object in the heap. *)
Abbreviation ref := nat (only parsing).

(** A handle returned by [asyncio.run_coroutine_threadsafe]. *)
Abbreviation future := nat (only parsing).

(** [update_json]: the lifecycle event sent by the recorder. [RoomId] and
    [SessionId] are the two entries of [EventData] the manager reads; the
    other fields are read by [Session] and [Video]. *)
Module Update.
Record t : Type := mk {
  EventType : string;
  RoomId : Z;
  SessionId : string;
  EventTimestamp : Datetime.t;
  Name : string;
  Title : string;
  RelativePath : string
}.
End Update.

Module Video.
(** Modelled from the spec: [Video] is absent from the sources; it is "an
    immutable record of one recorded file segment (path, timing)" built
    from a [FileClosed] event. *)
Record t : Type := mk { flv_path : string; closed_at : Datetime.t }.

Definition of_update (u : Update.t) : t :=
  mk (Update.RelativePath u) (Update.EventTimestamp u).

Definition flv_file_path (v : t) : string := flv_path v.
End Video.

Module Session.
Record t : Type := mk {
  session_id : string;
  room_id : Z;
  room_name : string;
  room_title : string;
  start_time : Datetime.t;
  end_time : option Datetime.t;
  videos : list Video.t;
  early_video_path : option string;
  upload_task : option future
}.

Definition set_upload_task (h : option future) (s : t) : t :=
  mk (session_id s) (room_id s) (room_name s) (room_title s) (start_time s)
     (end_time s) (videos s) (early_video_path s) h.

Definition set_early_video_path (p : option string) (s : t) : t :=
  mk (session_id s) (room_id s) (room_name s) (room_title s) (start_time s)
     (end_time s) (videos s) p (upload_task s).

(** Modelled from the spec: the constructor [Session(update_json)] is
    absent from the sources. A session is "created on a SessionStarted
    event" with the identity and metadata of the event, [end_time] "unset
    until ended", no video segment, no early video and no workflow
    handle. *)
Definition of_update (u : Update.t) : t :=
  mk (Update.SessionId u) (Update.RoomId u) (Update.Name u) (Update.Title u)
     (Update.EventTimestamp u) None [] None None.

(** Modelled from the spec: [Session.process_update] is absent from the
    sources. It performs the "generic field updates" (name and title) and,
    on [SessionEnded], "records end_time". *)
Definition process_update (u : Update.t) (s : t) : t :=
  mk (session_id s) (room_id s) (Update.Name u) (Update.Title u) (start_time s)
     (if String.eqb (Update.EventType u) "SessionEnded"
      then Some (Update.EventTimestamp u) else end_time s)
     (videos s) (early_video_path s) (upload_task s).

(** Modelled from the spec: [Session.add_video] is absent from the
    sources. "FileClosed: append a new Video to the session." *)
Definition add_video (v : Video.t) (s : t) : t :=
  mk (session_id s) (room_id s) (room_name s) (room_title s) (start_time s)
     (end_time s) (videos s ++ [v]) (early_video_path s) (upload_task s).
End Session.

(** [bilibili_api.Verify(sessdata, bili_jct)]. *)
Module Verify.
Record t : Type := mk { sessdata : string; csrf : string }.
End Verify.

Module UploadTask.
(** The keyword arguments of the two constructor calls in [upload_video],
    and the [trial] counter, which starts at 0. *)
Record t : Type := mk {
  session_id : string;
  video_path : option string;
  thumbnail_path : string;
  sc_path : string;
  he_path : string;
  title : string;
  source : string;
  description : string;
  tag : string;
  channel_id : Z;
  danmaku : bool;
  verify : Verify.t;
  trial : Z
}.

Definition set_trial (n : Z) (u : t) : t :=
  mk (session_id u) (video_path u) (thumbnail_path u) (sc_path u) (he_path u)
     (title u) (source u) (description u) (tag u) (channel_id u) (danmaku u)
     (verify u) n.
End UploadTask.

Module CommentTask.
(** Modelled from the spec: [CommentTask] is absent from the sources. It
    is "derived from a completed UploadTask (session_id + the text/content
    needed to comment)"; the content kept here is the two overlay files and
    the credentials of the upload task. It has no trial counter. *)
Record t : Type := mk {
  session_id : string;
  sc_path : string;
  he_path : string;
  verify : Verify.t
}.

Definition from_upload_task (u : UploadTask.t) : t :=
  mk (UploadTask.session_id u) (UploadTask.sc_path u) (UploadTask.he_path u)
     (UploadTask.verify u).
End CommentTask.

Module TaskSave.
Record t : Type := mk {
  session_id_map : gmap string string;
  active_comment_tasks : list CommentTask.t
}.

(** [TaskSave()] *)
Definition empty : t := mk ∅ [].

Definition set_session_id_map (m : gmap string string) (s : t) : t :=
  mk m (active_comment_tasks s).

Definition set_active_comment_tasks (l : list CommentTask.t) (s : t) : t :=
  mk (session_id_map s) l.
End TaskSave.

(** ** The persisted document

    The save file holds the YAML rendering of [self.save.to_dict()]. The
    YAML layer is a library; the file is modelled by the document that is
    dumped to it and loaded from it. *)

Module SaveDoc.
(** Modelled from the spec: [TaskSave.to_dict], [TaskSave.from_dict] and
    the [to_dict]/[from_dict] of [CommentTask] are absent from the sources.
    The persisted state file is "a structured document with two top-level
    fields, session_id_map (mapping of session identifier to published
    video identifier) and active_comment_tasks (sequence of comment task
    records)". A comment task record is a mapping from field names to
    strings. *)
Record t : Type := mk {
  session_id_map : gmap string string;
  active_comment_tasks : list (gmap string string)
}.

Definition comment_task_to_dict (c : CommentTask.t) : gmap string string :=
  <["session_id" := CommentTask.session_id c]>
  (<["sc_path" := CommentTask.sc_path c]>
  (<["he_path" := CommentTask.he_path c]>
  (<["sessdata" := Verify.sessdata (CommentTask.verify c)]>
  (<["bili_jct" := Verify.csrf (CommentTask.verify c)]> ∅)))).

(** A missing key raises [KeyError]. *)
Definition getitem (d : gmap string string) (k : string) : Result string :=
  match d !! k with
  | Some v => Ok v
  | None => Exc KeyError
  end.

Definition comment_task_from_dict (d : gmap string string) : Result CommentTask.t :=
  match getitem d "session_id", getitem d "sc_path", getitem d "he_path",
        getitem d "sessdata", getitem d "bili_jct" with
  | Ok sid, Ok sc, Ok he, Ok sd, Ok jct =>
      Ok (CommentTask.mk sid sc he (Verify.mk sd jct))
  | _, _, _, _, _ => Exc KeyError
  end.

Fixpoint comment_tasks_from_dicts (l : list (gmap string string))
  : Result (list CommentTask.t) :=
  match l with
  | [] => Ok []
  | d :: rest =>
      match comment_task_from_dict d with
      | Exc e => Exc e
      | Ok c =>
          match comment_tasks_from_dicts rest with
          | Exc e => Exc e
          | Ok cs => Ok (c :: cs)
          end
      end
  end.

Definition to_dict (s : TaskSave.t) : t :=
  mk (TaskSave.session_id_map s)
     (map comment_task_to_dict (TaskSave.active_comment_tasks s)).

Definition from_dict (d : t) : Result TaskSave.t :=
  match comment_tasks_from_dicts (active_comment_tasks d) with
  | Exc e => Exc e
  | Ok cs => Ok (TaskSave.mk (session_id_map d) cs)
  end.
End SaveDoc.

(** ** Configuration ([recorder_config.py]) *)

Module RoomConfig.
Record t : Type := mk {
  id : Z;
  uploader : option string;
  title : string;
  description : string;
  source : string;
  tags : string;
  channel_id : Z
}.
End RoomConfig.

Module UploaderAccount.
Record t : Type := mk { name : string; sessdata : string; bili_jct : string }.
End UploaderAccount.

Module RecorderConfig.
Record t : Type := mk {
  rooms : list RoomConfig.t;
  accounts : gmap string UploaderAccount.t
}.
End RecorderConfig.

(** ** The world: the manager's mutable state and its effects *)

(** What [print] writes. *)
Inductive Msg : Type :=
| MsgCreatingSaveFile
| MsgUploadFailedRetrying (title : string)
| MsgUploadFailedTooManyTimes (title : string)
| MsgUnknownPostingException (err : exn)
| MsgCannotFindRoomConfig (room_id : Z)
| MsgNoNeedToUpload (room_id : Z)
| MsgCannotFind (room_id : Z) (session_id : string) (update_json : Update.t).

Inductive Event : Type :=
| EvPrint (m : Msg)                   (* print(...) *)
| EvTraceback                         (* print(traceback.format_exc()) *)
| EvAcquire                           (* entering  [with self.save_lock] *)
| EvRelease                           (* leaving   [with self.save_lock] *)
| EvWrite (d : SaveDoc.t)             (* the save file is overwritten *)
| EvSleep (secs : Z)                  (* time.sleep / asyncio.sleep *)
| EvPutUpload (t : UploadTask.t)      (* self.video_upload_queue.put *)
| EvPutComment (c : CommentTask.t)    (* self.comment_post_queue.put *)
| EvLaunch (h : future) (r : ref)     (* asyncio.run_coroutine_threadsafe *)
| EvCancel (h : future).              (* Future.cancel *)

Record World : Type := mkWorld {
  sessions : list (string * ref);          (* self.sessions, in insertion order *)
  heap : list Session.t;                   (* the Session objects *)
  video_upload_queue : list UploadTask.t;  (* head = next task to get *)
  comment_post_queue : list CommentTask.t;
  save : TaskSave.t;                       (* self.save *)
  save_file : option SaveDoc.t;            (* the file at self.save_path *)
  next_future : future;
  trace : list Event
}.

Definition set_sessions (x : list (string * ref)) (w : World) : World :=
  mkWorld x (heap w) (video_upload_queue w) (comment_post_queue w) (save w)
          (save_file w) (next_future w) (trace w).
Definition set_heap (x : list Session.t) (w : World) : World :=
  mkWorld (sessions w) x (video_upload_queue w) (comment_post_queue w) (save w)
          (save_file w) (next_future w) (trace w).
Definition set_video_upload_queue (x : list UploadTask.t) (w : World) : World :=
  mkWorld (sessions w) (heap w) x (comment_post_queue w) (save w)
          (save_file w) (next_future w) (trace w).
Definition set_comment_post_queue (x : list CommentTask.t) (w : World) : World :=
  mkWorld (sessions w) (heap w) (video_upload_queue w) x (save w)
          (save_file w) (next_future w) (trace w).
Definition set_save (x : TaskSave.t) (w : World) : World :=
  mkWorld (sessions w) (heap w) (video_upload_queue w) (comment_post_queue w) x
          (save_file w) (next_future w) (trace w).
Definition set_save_file (x : option SaveDoc.t) (w : World) : World :=
  mkWorld (sessions w) (heap w) (video_upload_queue w) (comment_post_queue w) (save w)
          x (next_future w) (trace w).
Definition set_next_future (x : future) (w : World) : World :=
  mkWorld (sessions w) (heap w) (video_upload_queue w) (comment_post_queue w) (save w)
          (save_file w) x (trace w).
Definition set_trace (x : list Event) (w : World) : World :=
  mkWorld (sessions w) (heap w) (video_upload_queue w) (comment_post_queue w) (save w)
          (save_file w) (next_future w) x.

(** ** The state-and-exception monad *)

Definition M (A : Type) : Type := World → Result A * World.

Definition ret {A} (a : A) : M A := fun w => (Ok a, w).

Definition raise {A} (e : exn) : M A := fun w => (Exc e, w).

Definition bind {A B} (m : M A) (k : A → M B) : M B :=
  fun w =>
    match m w with
    | (Ok a, w') => k a w'
    | (Exc e, w') => (Exc e, w')
    end.

Notation "'let*' x ':=' m 'in' k" := (bind m (fun x => k))
  (at level 10, x name, m at level 100, k at level 200).
Notation "m ';;' k" := (bind m (fun _ => k))
  (at level 100, k at level 200, right associativity).

Definition gets {A} (f : World → A) : M A := fun w => (Ok (f w), w).

Definition modify (f : World → World) : M unit := fun w => (Ok tt, f w).

(** The outcome of a call that leaves the process. *)
Definition lift {A} (r : Result A) : M A := fun w => (r, w).

(** [try: m  except Exception as err: h err]. An exception that is not an
    [Exception] is not caught: it propagates. *)
Definition try_except {A} (m : M A) (h : exn → M A) : M A :=
  fun w =>
    match m w with
    | (Ok a, w') => (Ok a, w')
    | (Exc e, w') => if is_Exception e then h e w' else (Exc e, w')
    end.

(** [try: m  finally: f] *)
Definition finally {A} (m : M A) (f : M unit) : M A :=
  fun w =>
    match m w with
    | (r, w') =>
        match f w' with
        | (Ok _, w'') => (r, w'')
        | (Exc e, w'') => (Exc e, w'')
        end
    end.

Definition emit (e : Event) : M unit :=
  modify (fun w => set_trace (trace w ++ [e]) w).

(** [with self.save_lock: m]. Each method below runs as one step of its
    thread, so the lock is free when the step asks for it. *)
Definition with_lock {A} (m : M A) : M A :=
  emit EvAcquire ;; finally m (emit EvRelease).

(** ** The insertion-ordered dictionary [self.sessions] *)

Fixpoint dict_get (k : string) (d : list (string * ref)) : option ref :=
  match d with
  | [] => None
  | (k', v) :: rest => if String.eqb k' k then Some v else dict_get k rest
  end.

(** [d[k] = v]: an existing key keeps its position, a new key goes last. *)
Fixpoint dict_set (k : string) (v : ref) (d : list (string * ref)) : list (string * ref) :=
  match d with
  | [] => [(k, v)]
  | (k', v') :: rest =>
      if String.eqb k' k then (k, v) :: rest else (k', v') :: dict_set k v rest
  end.

Definition dict_values (d : list (string * ref)) : list ref := map snd d.

(** ** Heap operations *)

Definition deref (r : ref) : M Session.t :=
  fun w =>
    match heap w !! r with
    | Some s => (Ok s, w)
    | None => (Exc DanglingReference, w)
    end.

(** Allocation of a new [Session] object. *)
Definition new_session (s : Session.t) : M ref :=
  fun w => (Ok (length (heap w)), set_heap (heap w ++ [s]) w).

(** In-place mutation of the object behind [r]. *)
Definition mutate (r : ref) (f : Session.t → Session.t) : M unit :=
  modify (fun w => set_heap (alter f r (heap w)) w).

Definition sessions_setitem (k : string) (r : ref) : M unit :=
  modify (fun w => set_sessions (dict_set k r (sessions w)) w).

(** ** Persistence *)

(** [save_progress]: the save file is overwritten with [self.save.to_dict()].
    Opening and writing the file are taken to succeed. *)
Definition save_progress : M unit :=
  let* d := gets (fun w => SaveDoc.to_dict (save w)) in
  modify (set_save_file (Some d)) ;;
  emit (EvWrite d).

(** The part of [__init__] that obtains [self.save]: load the save file
    when it exists, otherwise start from [TaskSave()] and persist it. *)
Definition load : M unit :=
  let* f := gets save_file in
  match f with
  | Some d =>
      let* s := lift (SaveDoc.from_dict d) in
      modify (set_save s)
  | None =>
      emit (EvPrint MsgCreatingSaveFile) ;;
      modify (set_save TaskSave.empty) ;;
      save_progress
  end.

(** ** [handle_update] *)

(** [asyncio.run_coroutine_threadsafe(self.upload_video(session), loop)]:
    the workflow is scheduled on the processing loop and a fresh handle is
    returned. The workflow itself is [upload_video] below. *)
Definition run_coroutine_threadsafe (r : ref) : M future :=
  let* h := gets next_future in
  modify (set_next_future (S h)) ;;
  emit (EvLaunch h r) ;;
  ret h.

(** [session.upload_task.cancel()] *)
Definition cancel (h : future) : M unit := emit (EvCancel h).

(** The loop [for session in self.sessions.values()] of the
    [SessionStarted] branch. The result tells whether the body executed its
    [return]. [datetime.datetime.now()] is called once for every session of
    the event's room that the loop examines (the [and] does not evaluate its
    right operand otherwise): [clock k] is the reading of the [k]-th call, and
    [k] counts the calls made so far. *)
Fixpoint continue_session (clock : nat → Datetime.t) (k : nat) (room_id : Z)
    (session_id : string) (values : list ref) : M bool :=
  match values with
  | [] => ret false
  | r :: rest =>
      let* session := deref r in
      if Session.room_id session =? room_id then
        let* d := lift (py_sub (Session.end_time session) (clock k)) in
        if Qltb (inject_Z (Timedelta.seconds d) / inject_Z 60)
                (inject_Z CONTINUE_SESSION_MINUTES)
        then
          sessions_setitem session_id r ;;
          match Session.upload_task session with
          | Some h => cancel h
          | None => ret tt
          end ;;
          ret true
        else continue_session clock (S k) room_id session_id rest
      else continue_session clock k room_id session_id rest
  end.

Definition handle_update (clock : nat → Datetime.t) (update_json : Update.t) : M unit :=
  let room_id := Update.RoomId update_json in
  let session_id := Update.SessionId update_json in
  if String.eqb (Update.EventType update_json) "SessionStarted" then
    let* values := gets (fun w => dict_values (sessions w)) in
    let* returned := continue_session clock 0 room_id session_id values in
    if returned then ret tt
    else
      let* r := new_session (Session.of_update update_json) in
      sessions_setitem session_id r
  else
    let* found := gets (fun w => dict_get session_id (sessions w)) in
    match found with
    | None => emit (EvPrint (MsgCannotFind room_id session_id update_json))
    | Some current_session =>
        mutate current_session (Session.process_update update_json) ;;
        if String.eqb (Update.EventType update_json) "FileClosed" then
          let new_video := Video.of_update update_json in
          mutate current_session (Session.add_video new_video)
        else if String.eqb (Update.EventType update_json) "SessionEnded" then
          let* h := run_coroutine_threadsafe current_session in
          mutate current_session (Session.set_upload_task (Some h))
        else ret tt
    end.

(** ** [video_uploader] *)

(** The environment's answer to [upload_task.upload(session_id_map)]: the
    published id, or an exception. *)
Definition upload_call : Type := UploadTask.t → gmap string string → Result string.

Definition put_upload (t : UploadTask.t) : M unit :=
  modify (fun w => set_video_upload_queue (video_upload_queue w ++ [t]) w) ;;
  emit (EvPutUpload t).

Definition put_comment (c : CommentTask.t) : M unit :=
  modify (fun w => set_comment_post_queue (comment_post_queue w ++ [c]) w) ;;
  emit (EvPutComment c).

(** The body of the [while True] loop once [get()] has returned
    [upload_task]. *)
Definition video_uploader_body (upload : upload_call) (upload_task : UploadTask.t)
  : M unit :=
  try_except
    (let* m := gets (fun w => TaskSave.session_id_map (save w)) in
     let* bv_id := lift (upload upload_task m) in
     with_lock
       (modify (fun w =>
          set_save (TaskSave.set_session_id_map
                      (<[UploadTask.session_id upload_task := bv_id]>
                         (TaskSave.session_id_map (save w)))
                      (save w)) w) ;;
        save_progress))
    (fun _ =>
       (if UploadTask.trial upload_task <? 5 then
          let upload_task :=
            UploadTask.set_trial (UploadTask.trial upload_task + 1) upload_task in
          put_upload upload_task ;;
          emit (EvPrint (MsgUploadFailedRetrying (UploadTask.title upload_task)))
        else
          emit (EvPrint (MsgUploadFailedTooManyTimes (UploadTask.title upload_task)))) ;;
       emit EvTraceback).

(** One iteration of the loop. [get()] blocks on an empty queue: there is
    then no step to take. *)
Definition video_uploader_iter (upload : upload_call) (w : World)
  : option (Result unit * World) :=
  match video_upload_queue w with
  | [] => None
  | upload_task :: q =>
      Some (video_uploader_body upload upload_task (set_video_upload_queue q w))
  end.

(** ** [comment_poster] *)

(** The environment's answer to [task.post_comment(session_id_map)] for the
    task at position [idx] of the active list. *)
Definition post_call : Type :=
  nat → CommentTask.t → gmap string string → Result bool.

(** [while not self.comment_post_queue.empty(): ...], by recursion on the
    content of the queue. *)
Fixpoint drain (q : list CommentTask.t) : M unit :=
  match q with
  | [] => ret tt
  | c :: rest =>
      modify (set_comment_post_queue rest) ;;
      modify (fun w =>
        set_save (TaskSave.set_active_comment_tasks
                    (TaskSave.active_comment_tasks (save w) ++ [c]) (save w)) w) ;;
      save_progress ;;
      drain rest
  end.

(** [for idx, task in enumerate(...)], from position [idx] on, with the
    [task_to_remove] accumulated so far. *)
Fixpoint post_all (post : post_call) (idx : nat) (tasks : list CommentTask.t)
    (task_to_remove : list nat) : M (list nat) :=
  match tasks with
  | [] => ret task_to_remove
  | task :: rest =>
      let* m := gets (fun w => TaskSave.session_id_map (save w)) in
      let* posted := lift (post idx task m) in
      post_all post (S idx) rest
               (if posted then task_to_remove ++ [idx] else task_to_remove)
  end.

(** [task_to_remove != 0]: a list is never equal to an integer, so the
    comparison is true whatever the list holds. *)
Definition list_ne_int (l : list nat) (n : Z) : bool := true.

Definition enumerate {A} (l : list A) : list (nat * A) :=
  combine (seq 0 (length l)) l.

(** [[t for idx, t in enumerate(l) if idx not in task_to_remove]] *)
Definition keep_not_in (task_to_remove : list nat) (l : list CommentTask.t)
  : list CommentTask.t :=
  map snd (List.filter (fun p => negb (existsb (Nat.eqb (fst p)) task_to_remove))
                       (enumerate l)).

(** The body of the [try] statement: the attempts and the removal. *)
Definition post_and_remove (post : post_call) : M unit :=
  let* active := gets (fun w => TaskSave.active_comment_tasks (save w)) in
  if negb (Nat.eqb (length active) 0) then
    let* task_to_remove := post_all post 0 active [] in
    if list_ne_int task_to_remove 0 then
      with_lock
        (modify (fun w =>
           set_save (TaskSave.set_active_comment_tasks
                       (keep_not_in task_to_remove
                          (TaskSave.active_comment_tasks (save w)))
                       (save w)) w) ;;
         save_progress)
    else ret tt
  else ret tt.

(** One cycle of the [while True] loop. *)
Definition comment_poster_cycle (post : post_call) : M unit :=
  with_lock
    (let* q := gets comment_post_queue in
     drain q) ;;
  finally
    (try_except
       (post_and_remove post)
       (fun err =>
          emit (EvPrint (MsgUnknownPostingException err)) ;;
          emit EvTraceback))
    (emit (EvSleep 60)).

(** ** [upload_video]: the per-session workflow

    The workflow is a coroutine with three suspension points. Between two
    suspension points it runs without interruption on the processing loop;
    at a suspension point it waits for an answer of the environment, and a
    cancelled workflow is one that is never resumed. *)

Inductive Awaitable : Type :=
| AwGenEarlyVideo (session : ref)      (* await session.gen_early_video() *)
| AwSleep (secs : Z)                   (* await asyncio.sleep(...) *)
| AwGenDanmakuVideo (session : ref).   (* await session.gen_danmaku_video() *)

(** The state of a coroutine: finished, or suspended on an awaitable with
    the rest of its body. The answer is the path produced by a video
    generation, if any; a sleep answers nothing. *)
#[local] Unset Elimination Schemes.
Inductive Coro : Type :=
| Finished
| Awaiting (a : Awaitable) (resume : option string → World → Result Coro * World).
#[local] Set Elimination Schemes.

(** Modelled from the spec: [Session.gen_early_video] is absent from the
    sources. The collaborator "generate_early_cut(session) -> path|None"
    "produces a playable video without the danmaku overlay, or signals none
    is needed"; the manager reads the outcome in [session.early_video_path]. *)
Definition gen_early_video (session : ref) (answer : option string) : M unit :=
  mutate session (Session.set_early_video_path answer).

(** Modelled from the spec: [Session.gen_danmaku_video] is absent from the
    sources. The collaborator "generate_danmaku_cut(session) -> path"
    produces the danmaku-burned video at the path it answers; the manager
    discards the value of the [await], and the early cut of the session is
    untouched. *)
Definition gen_danmaku_video (session : ref) (answer : option string) : M unit :=
  ret tt.

(** [str(n)] *)
Definition py_str (n : Z) : string := pretty n.

(** [f"{n: 0w}"]: a space (or a minus sign) followed by the digits, padded
    with zeros to [w] characters in all. *)
Definition format_space_zero (w : nat) (n : Z) : string :=
  let digits := pretty (Z.to_N (Z.abs n)) in
  (if n <? 0 then "-" else " ")
    +:+ String.concat "" (replicate (w - 1 - String.length digits)%nat "0")
    +:+ digits.

Section Workflow.

(** [Session.output_path()], a dictionary of file paths, read at a key. *)
Variable output_path : Session.t → string → string.

(** [string.Template(template).substitute(mapping)]: the substituted text,
    or [KeyError] / [ValueError]. *)
Variable substitute : string → list (string * string) → Result string.

(** [self.config] *)
Variable config : RecorderConfig.t.

(** [for room in self.config.rooms: if room.id == room_id: room_config = room] *)
Definition find_room_config (room_id : Z) : option RoomConfig.t :=
  fold_left
    (fun room_config room =>
       if RoomConfig.id room =? room_id then Some room else room_config)
    (RecorderConfig.rooms config) None.

Definition accounts_getitem (k : string) : Result UploaderAccount.t :=
  match RecorderConfig.accounts config !! k with
  | Some a => Ok a
  | None => Exc KeyError
  end.

Definition videos_getitem0 (s : Session.t) : Result Video.t :=
  match Session.videos s with
  | [] => Exc IndexError
  | v :: _ => Ok v
  end.

(** The values are already passed through [str], which [substitute]
    applies to whatever it inserts. *)
Definition substitute_dict (s : Session.t) (uploader : UploaderAccount.t)
    (video0 : Video.t) : list (string * string) :=
  [ ("name", Session.room_name s);
    ("title", Session.room_title s);
    ("uploader_name", UploaderAccount.name uploader);
    ("y", py_str (Datetime.year (Session.start_time s)));
    ("m", py_str (Datetime.month (Session.start_time s)));
    ("d", py_str (Datetime.day (Session.start_time s)));
    ("yy", format_space_zero 5 (Datetime.year (Session.start_time s)));
    ("mm", format_space_zero 3 (Datetime.month (Session.start_time s)));
    ("dd", format_space_zero 3 (Datetime.day (Session.start_time s)));
    ("flv_path", Video.flv_file_path video0) ].

(** From [await session.gen_danmaku_video()] to the end. *)
Definition after_danmaku (session : ref) (room_config : RoomConfig.t)
    (uploader : UploaderAccount.t) (title description : string)
    (early_upload_task : option UploadTask.t) (answer : option string) : M Coro :=
  gen_danmaku_video session answer ;;
  let* s := deref session in
  let danmaku_upload_task :=
    UploadTask.mk
      (Session.session_id s)
      (Session.early_video_path s)
      (output_path s "thumbnail")
      (output_path s "sc_file")
      (output_path s "he_file")
      title
      (RoomConfig.source room_config)
      description
      (RoomConfig.tags room_config)
      (RoomConfig.channel_id room_config)
      true
      (Verify.mk (UploaderAccount.sessdata uploader) (UploaderAccount.bili_jct uploader))
      0 in
  put_upload danmaku_upload_task ;;
  match early_upload_task with
  | None => put_comment (CommentTask.from_upload_task danmaku_upload_task)
  | Some _ => ret tt
  end ;;
  ret Finished.

(** From the end of [asyncio.sleep] to the third suspension point. *)
Definition after_sleep (session : ref) (room_config : RoomConfig.t)
    (uploader : UploaderAccount.t) (title description : string)
    (early_upload_task : option UploadTask.t) (answer : option string) : M Coro :=
  match early_upload_task with
  | Some t => put_comment (CommentTask.from_upload_task t)
  | None => ret tt
  end ;;
  ret (Awaiting (AwGenDanmakuVideo session)
         (after_danmaku session room_config uploader title description
                        early_upload_task)).

(** From [await session.gen_early_video()] to the second suspension point. *)
Definition after_early (session : ref) (room_config : RoomConfig.t)
    (uploader : UploaderAccount.t) (title description : string)
    (answer : option string) : M Coro :=
  gen_early_video session answer ;;
  let* s := deref session in
  let* early_upload_task :=
    match Session.early_video_path s with
    | Some p =>
        let early_upload_task :=
          UploadTask.mk
            (Session.session_id s)
            (Some p)
            (output_path s "thumbnail")
            (output_path s "sc_file")
            (output_path s "he_file")
            title
            (RoomConfig.source room_config)
            description
            (RoomConfig.tags room_config)
            (RoomConfig.channel_id room_config)
            false
            (Verify.mk (UploaderAccount.sessdata uploader)
                       (UploaderAccount.bili_jct uploader))
            0 in
        put_upload early_upload_task ;;
        ret (Some early_upload_task)
    | None => ret None
    end in
  ret (Awaiting (AwSleep (WAIT_SESSION_MINUTES * 60))
         (after_sleep session room_config uploader title description
                      early_upload_task)).

(** From the start of the coroutine to its first suspension point. *)
Definition upload_video (session : ref) : M Coro :=
  let* s := deref session in
  match find_room_config (Session.room_id s) with
  | None =>
      emit (EvPrint (MsgCannotFindRoomConfig (Session.room_id s))) ;;
      ret Finished
  | Some room_config =>
      match RoomConfig.uploader room_config with
      | None =>
          emit (EvPrint (MsgNoNeedToUpload (RoomConfig.id room_config))) ;;
          ret Finished
      | Some uploader_id =>
          let* uploader := lift (accounts_getitem uploader_id) in
          let* video0 := lift (videos_getitem0 s) in
          let d := substitute_dict s uploader video0 in
          let* title := lift (substitute (RoomConfig.title room_config) d) in
          let* description := lift (substitute (RoomConfig.description room_config) d) in
          ret (Awaiting (AwGenEarlyVideo session)
                 (after_early session room_config uploader title description))
      end
  end.

(** Resume a coroutine once per answer of the environment, as long as it
    is suspended. *)
Fixpoint resume_with (answers : list (option string)) (c : Coro) : M Coro :=
  match answers, c with
  | answer :: rest, Awaiting _ resume =>
      let* c' := resume answer in
      resume_with rest c'
  | _, _ => ret c
  end.

(** A run of the workflow: started, then resumed with each answer. A run
    that is cancelled at a suspension point is a run with fewer answers. *)
Definition run_upload_video (session : ref) (answers : list (option string))
  : M Coro :=
  let* c := upload_video session in
  resume_with answers c.

End Workflow.

(** The queue puts recorded in a trace. *)
Fixpoint upload_puts (tr : list Event) : list UploadTask.t :=
  match tr with
  | [] => []
  | EvPutUpload t :: rest => t :: upload_puts rest
  | _ :: rest => upload_puts rest
  end.

Fixpoint comment_puts (tr : list Event) : list CommentTask.t :=
  match tr with
  | [] => []
  | EvPutComment c :: rest => c :: comment_puts rest
  | _ :: rest => comment_puts rest
  end.

(** The file writes recorded in a trace. *)
Fixpoint writes (tr : list Event) : list SaveDoc.t :=
  match tr with
  | [] => []
  | EvWrite d :: rest => d :: writes rest
  | _ :: rest => writes rest
  end.

(** * Vocabulary of the properties *)

(** The duration of a timedelta, in microseconds. *)
Definition total_microseconds (d : Timedelta.t) : Z :=
  (Timedelta.days d * 86400 + Timedelta.seconds d) * 1000000 + Timedelta.microseconds d.

Definition enumerate_from {A} (idx : nat) (l : list A) : list (nat * A) :=
  combine (seq idx (length l)) l.

(** The attempt on the task at position [idx] reports success. *)
Definition reports_success (post : post_call) (m : gmap string string)
    (idx : nat) (task : CommentTask.t) : bool :=
  match post idx task m with
  | Ok true => true
  | _ => false
  end.

(** The attempt on the task at position [idx] raises an exception. *)
Definition attempt_raises (post : post_call) (m : gmap string string)
    (idx : nat) (task : CommentTask.t) : bool :=
  match post idx task m with
  | Exc _ => true
  | Ok _ => false
  end.

(** Some attempt of a cycle over [tasks] raises. *)
Definition any_raises (post : post_call) (m : gmap string string)
    (tasks : list CommentTask.t) : bool :=
  existsb (fun p => attempt_raises post m (fst p) (snd p)) (enumerate tasks).

(** The tasks whose attempt did not report success, in order. *)
Definition unposted (post : post_call) (m : gmap string string)
    (tasks : list CommentTask.t) : list CommentTask.t :=
  map snd (List.filter (fun p => negb (reports_success post m (fst p) (snd p)))
                       (enumerate tasks)).

(** The positions, from [idx] on, whose attempt reports success. *)
Fixpoint successes (post : post_call) (m : gmap string string) (idx : nat)
    (tasks : list CommentTask.t) : list nat :=
  match tasks with
  | [] => []
  | task :: rest =>
      (if reports_success post m idx task then [idx] else [])
        ++ successes post m (S idx) rest
  end.

(** The active list on which a cycle makes its attempts: the persisted list
    followed by the newly queued tasks. *)
Definition attempted (w : World) : list CommentTask.t :=
  TaskSave.active_comment_tasks (save w) ++ comment_post_queue w.

(** Consecutive cycles of the comment worker, one [post_call] per cycle. *)
Fixpoint comment_poster_cycles (posts : list post_call) : M unit :=
  match posts with
  | [] => ret tt
  | post :: rest => comment_poster_cycle post ;; comment_poster_cycles rest
  end.

(** One cycle removes exactly the tasks whose attempt reported success,
    whatever else happens in the cycle. *)
Definition removed_exactly_on_success (post : post_call) (w : World) : Prop :=
  TaskSave.active_comment_tasks (save (snd (comment_poster_cycle post w)))
  = unposted post (TaskSave.session_id_map (save w)) (attempted w).

(** Consecutive iterations of the upload worker, one [upload_call] per
    iteration; the worker stops where [get()] would block, and where an
    exception leaves the loop. *)
Fixpoint video_uploader_run (uploads : list upload_call) (w : World) : World :=
  match uploads with
  | [] => w
  | upload :: rest =>
      match video_uploader_iter upload w with
      | None => w
      | Some (Ok _, w') => video_uploader_run rest w'
      | Some (Exc _, w') => w'
      end
  end.

(** The events a step appended to the trace of [w]. *)
Definition new_events (w w' : World) : list Event :=
  drop (length (trace w)) (trace w').

(** * Sample inputs *)

Definition stray_file_closed : Update.t :=
  Update.mk "FileClosed" 100 "unseen" (Datetime.mk 2021 3 1 12 0 0 0)
            "name" "title" "a.flv".

Definition world_one_session : World :=
  mkWorld
    [("s1", 0%nat)]
    [Session.mk "s1" 7 "name" "title" (Datetime.mk 2021 3 1 10 0 0 0) None [] None None]
    [] [] TaskSave.empty None 0%nat [].

Definition sample_task (n : Z) : UploadTask.t :=
  UploadTask.mk "s1" (Some "early.flv") "thumb.png" "sc.txt" "he.txt" "a title"
                "source" "description" "tags" 17 false (Verify.mk "sd" "jct") n.

Definition other_task : UploadTask.t :=
  UploadTask.mk "s0" (Some "other.flv") "thumb0.png" "sc0.txt" "he0.txt" "other"
                "source" "description" "tags" 17 true (Verify.mk "sd" "jct") 0.

Definition world_with_uploads (l : list UploadTask.t) : World :=
  mkWorld [] [] l [] TaskSave.empty (Some (SaveDoc.to_dict TaskSave.empty)) 0%nat [].

Definition upload_always_fails : upload_call := fun _ _ => Exc (Exception "network").

Definition upload_always_succeeds : upload_call := fun _ _ => Ok "BV1xx".

(** The upload call is cancelled. *)
Definition upload_cancelled : upload_call := fun _ _ => Exc CancelledError.

(** A clock whose readings are all [t]. *)
Definition steady (t : Datetime.t) : nat → Datetime.t := fun _ => t.

(** A session of room 100 that ended at noon, with a workflow handle, and
    a restart of the room two minutes later. *)
Definition noon : Datetime.t := Datetime.mk 2021 3 1 12 0 0 0.

Definition two_past_noon : Datetime.t := Datetime.mk 2021 3 1 12 2 0 0.

Definition ended_session : Session.t :=
  Session.mk "s1" 100 "name" "title" (Datetime.mk 2021 3 1 10 0 0 0)
             (Some noon) [Video.mk "a.flv" noon] None (Some 7%nat).

Definition world_ended : World :=
  mkWorld [("s1", 0%nat)] [ended_session] [] [] TaskSave.empty None 8%nat [].

Definition restart : Update.t :=
  Update.mk "SessionStarted" 100 "s2" two_past_noon "name" "title" "".

(** A session of room 100 that is still recording. *)
Definition recording_session : Session.t :=
  Session.mk "s1" 100 "name" "title" (Datetime.mk 2021 3 1 10 0 0 0)
             None [] None None.

Definition world_recording : World :=
  mkWorld [("s1", 0%nat)] [recording_session] [] [] TaskSave.empty None 0%nat [].

(** Two comment tasks in the active list. *)
Definition comment0 : CommentTask.t :=
  CommentTask.mk "s0" "sc0.txt" "he0.txt" (Verify.mk "sd" "jct").

Definition comment1 : CommentTask.t :=
  CommentTask.mk "s1" "sc1.txt" "he1.txt" (Verify.mk "sd" "jct").

Definition save_two_comments : TaskSave.t := TaskSave.mk ∅ [comment0; comment1].

Definition world_two_comments : World :=
  mkWorld [] [] [] [] save_two_comments (Some (SaveDoc.to_dict save_two_comments))
          0%nat [].

(** The first attempt succeeds, the second raises. *)
Definition post_first_ok_second_raises : post_call :=
  fun idx _ _ =>
    match idx with
    | O => Ok true
    | _ => Exc (Exception "network")
    end.

(** The first attempt succeeds, the second reports failure. *)
Definition post_first_ok_second_fails : post_call :=
  fun idx _ _ =>
    match idx with
    | O => Ok true
    | _ => Ok false
    end.

(** No attempt succeeds, none raises. *)
Definition post_never_succeeds : post_call := fun _ _ _ => Ok false.

(** The workflow of [session] started in [w] reaches its first suspension
    point, the generation of the early cut. *)
Definition reaches_early_cut (output_path : Session.t → string → string)
    (substitute : string → list (string * string) → Result string)
    (config : RecorderConfig.t) (session : ref) (w : World) : Prop :=
  match fst (upload_video output_path substitute config session w) with
  | Ok (Awaiting (AwGenEarlyVideo _) _) => True
  | _ => False
  end.

(** A configuration with one room and its uploader account, and simple
    stand-ins for the two library calls of the workflow. *)
Definition sample_config : RecorderConfig.t :=
  RecorderConfig.mk
    [RoomConfig.mk 100 (Some "acc") "title template" "description template"
                   "source" "tags" 21]
    {["acc" := UploaderAccount.mk "uploader" "sd" "jct"]}.

Definition sample_output_path : Session.t → string → string :=
  fun s key => Session.session_id s +:+ "/" +:+ key.

Definition sample_substitute : string → list (string * string) → Result string :=
  fun template _ => Ok template.

(** * Vocabulary of the further properties *)

(** The Session objects behind a list of references. *)
Definition derefs (w : World) (rs : list ref) (ss : list Session.t) : Prop :=
  Forall2 (fun r s => heap w !! r = Some s) rs ss.

(** The number of readings of the clock that the loop of the
    [SessionStarted] branch makes over the sessions [ss] when it examines all
    of them: one for every session of the event's room. *)
Definition readings (room_id : Z) (ss : list Session.t) : nat :=
  length (List.filter (fun s => Session.room_id s =? room_id) ss).

(** The condition of the [if] in the loop of the [SessionStarted] branch,
    on one session: [None] when evaluating it raises [TypeError]. *)
Definition continuation_test (now : Datetime.t) (room_id : Z) (s : Session.t)
  : option bool :=
  if Session.room_id s =? room_id then
    match py_sub (Session.end_time s) now with
    | Exc _ => None
    | Ok d =>
        Some (Qltb (inject_Z (Timedelta.seconds d) / inject_Z 60)
                   (inject_Z CONTINUE_SESSION_MINUTES))
    end
  else Some false.

(** The test of the loop is false on every session of [ss], each session
    of the event's room being tested at its own reading of the clock: the
    first at [clock k], the next at [clock (S k)], and so on. *)
Fixpoint tests_false (clock : nat → Datetime.t) (k : nat) (room_id : Z)
    (ss : list Session.t) : Prop :=
  match ss with
  | [] => True
  | s :: rest =>
      if Session.room_id s =? room_id then
        continuation_test (clock k) room_id s = Some false
        ∧ tests_false clock (S k) room_id rest
      else tests_false clock k room_id rest
  end.

(** The cancellation performed when a session is continued. *)
Definition cancel_events (s : Session.t) : list Event :=
  match Session.upload_task s with
  | Some h => [EvCancel h]
  | None => []
  end.

(** The world after the body of the loop has aliased [session_id] to the
    object [r], whose state is [s]. *)
Definition aliased (session_id : string) (r : ref) (s : Session.t) (w : World) : World :=
  set_trace (trace w ++ cancel_events s)
    (set_sessions (dict_set session_id r (sessions w)) w).

(** The world after a new [Session] has been created for the event and
    registered under its session id. *)
Definition registered_new (u : Update.t) (w : World) : World :=
  set_sessions (dict_set (Update.SessionId u) (length (heap w)) (sessions w))
    (set_heap (heap w ++ [Session.of_update u]) w).

(** A restart of room 100 one day minus two minutes after noon. *)
Definition next_day_1158 : Datetime.t := Datetime.mk 2021 3 2 11 58 0 0.

Definition restart_next_day : Update.t :=
  Update.mk "SessionStarted" 100 "s2" next_day_1158 "name" "title" "".

(** One day and five minutes, in microseconds. *)
Definition DAY_US : Z := 86400 * 1000000.

Definition WINDOW_US : Z := CONTINUE_SESSION_MINUTES * 60 * 1000000.

(** The end of session "s1", at noon. *)
Definition session_ended_s1 : Update.t :=
  Update.mk "SessionEnded" 100 "s1" noon "name" "title" "".

(** The number of attempts a task still gets when every upload fails: a
    task is retried while [trial < 5] and gets one attempt otherwise. *)
Definition attempts_left (t : UploadTask.t) : nat :=
  Z.to_nat (Z.max 1 (6 - UploadTask.trial t)).

Fixpoint retry_budget (q : list UploadTask.t) : nat :=
  match q with
  | [] => 0
  | t :: rest => attempts_left t + retry_budget rest
  end.

(** An upload call that raises an [Exception] whatever the task and the
    id map. *)
Definition always_fails (upload : upload_call) : Prop :=
  ∀ t m, ∃ e, upload t m = Exc e ∧ is_Exception e = true.

(** The save file holds the current save state. *)
Definition in_sync (w : World) : Prop :=
  save_file w = Some (SaveDoc.to_dict (save w)).

(** Lock discipline of a sequence of events, starting with the lock held
    or not: the lock is acquired only when free and released only when held,
    the save file is written only while the lock is held, and the lock is free
    at the end. *)
Fixpoint lock_ok (held : bool) (tr : list Event) : bool :=
  match tr with
  | [] => negb held
  | EvAcquire :: rest => negb held && lock_ok true rest
  | EvRelease :: rest => held && lock_ok false rest
  | EvWrite _ :: rest => held && lock_ok held rest
  | _ :: rest => lock_ok held rest
  end.

(** The world after a successful upload of [t], the head of the queue. *)
Definition world_after_upload (t : UploadTask.t) (q : list UploadTask.t)
    (bv_id : string) (w : World) : World :=
  let save' :=
    TaskSave.set_session_id_map
      (<[UploadTask.session_id t := bv_id]> (TaskSave.session_id_map (save w)))
      (save w) in
  set_trace (trace w ++ [EvAcquire; EvWrite (SaveDoc.to_dict save'); EvRelease])
    (set_save_file (Some (SaveDoc.to_dict save'))
       (set_save save' (set_video_upload_queue q w))).

(** The queue after a failed upload of [t], the head of the queue. *)
Definition queue_after_failure (t : UploadTask.t) (q : list UploadTask.t)
  : list UploadTask.t :=
  if UploadTask.trial t <? 5
  then q ++ [UploadTask.set_trial (UploadTask.trial t + 1) t]
  else q.

(** Sample: an early and a danmaku upload task of the same session. *)
Definition early_s1 : UploadTask.t := sample_task 0.

Definition danmaku_s1 : UploadTask.t :=
  UploadTask.mk "s1" (Some "early.flv") "thumb.png" "sc.txt" "he.txt" "a title"
                "source" "description" "tags" 17 true (Verify.mk "sd" "jct") 0.

Definition upload_returns (bv_id : string) : upload_call := fun _ _ => Ok bv_id.

(** The events of the second half of a comment cycle (attempts, removal,
    handler), once the queue has been drained: [None] when no attempt raises
    and there is nothing to attempt. *)
Inductive CycleOutcome : Type :=
| NothingToPost
| Removed (remaining : list CommentTask.t)
| Aborted (e : exn).

(** The first exception raised by the attempts over [tasks], from position
    [idx] on. *)
Fixpoint first_exception (post : post_call) (m : gmap string string) (idx : nat)
    (tasks : list CommentTask.t) : option exn :=
  match tasks with
  | [] => None
  | task :: rest =>
      match post idx task m with
      | Exc e => Some e
      | Ok _ => first_exception post m (S idx) rest
      end
  end.

Definition cycle_outcome (post : post_call) (m : gmap string string)
    (tasks : list CommentTask.t) : CycleOutcome :=
  match first_exception post m 0 tasks with
  | Some e => Aborted e
  | None =>
      match tasks with
      | [] => NothingToPost
      | _ => Removed (unposted post m tasks)
      end
  end.

(** Sample: one comment task is queued behind the two active ones. *)
Definition comment2 : CommentTask.t :=
  CommentTask.mk "s2" "sc2.txt" "he2.txt" (Verify.mk "sd" "jct").

Definition world_comments_queued : World :=
  mkWorld [] [] [] [comment2] save_two_comments
          (Some (SaveDoc.to_dict save_two_comments)) 0%nat [].

(** The second attempt raises a timeout, the third another error. *)
Definition post_second_times_out : post_call :=
  fun idx _ _ =>
    match idx with
    | O => Ok true
    | S O => Exc (Exception "timeout")
    | _ => Exc (Exception "refused")
    end.

(** A configuration in which room 100 appears twice, the second time
    without an uploader, and one whose uploader has no account. *)
Definition config_duplicate_room : RecorderConfig.t :=
  RecorderConfig.mk
    [RoomConfig.mk 100 (Some "acc") "first" "d" "source" "tags" 21;
     RoomConfig.mk 100 None "second" "d" "source" "tags" 21]
    {["acc" := UploaderAccount.mk "uploader" "sd" "jct"]}.

Definition config_missing_account : RecorderConfig.t :=
  RecorderConfig.mk
    [RoomConfig.mk 100 (Some "nobody") "title template" "description template"
                   "source" "tags" 21]
    {["acc" := UploaderAccount.mk "uploader" "sd" "jct"]}.

(** An upload call that publishes every task under an id derived from it,
    and a post call that always succeeds. *)
Definition publish_by_variant (t : UploadTask.t) : string :=
  if UploadTask.danmaku t then "BV1danmaku" else "BV1early".

Definition upload_publishes : upload_call := fun t _ => Ok (publish_by_variant t).

Definition post_always_succeeds : post_call := fun _ _ _ => Ok true.

(** Two sessions of room 100: the first ended at 11:00:00, the second ends
    at 12:05:00.5. The clock reads 12:00:00 at its first call and 12:00:01
    afterwards. *)
Definition session_ended_at_eleven : Session.t :=
  Session.mk "s0" 100 "name" "title" (Datetime.mk 2021 3 1 10 0 0 0)
             (Some (Datetime.mk 2021 3 1 11 0 0 0)) [] None None.

Definition session_ending_soon : Session.t :=
  Session.mk "s1" 100 "name" "title" (Datetime.mk 2021 3 1 11 30 0 0)
             (Some (Datetime.mk 2021 3 1 12 5 0 500000)) [] None (Some 4%nat).

Definition world_same_room_twice : World :=
  mkWorld [("s0", 0%nat); ("s1", 1%nat)]
          [session_ended_at_eleven; session_ending_soon]
          [] [] TaskSave.empty None 5%nat [].

Definition two_readings : nat → Datetime.t :=
  fun k =>
    match k with
    | O => Datetime.mk 2021 3 1 12 0 0 0
    | _ => Datetime.mk 2021 3 1 12 0 1 0
    end.

Definition file_closed_new_id : Update.t :=
  Update.mk "FileClosed" 100 "s2" (Datetime.mk 2021 3 1 12 30 0 0)
            "name" "title" "b.flv".

(** Room 100 has the ended session "s0" and, registered after it, the
    recording session "s1". *)
Definition world_ended_and_recording : World :=
  mkWorld [("s0", 0%nat); ("s1", 1%nat)]
          [session_ended_at_eleven;
           Session.mk "s1" 100 "name" "title" (Datetime.mk 2021 3 1 11 30 0 0)
                      None [] None None]
          [] [] TaskSave.empty None 5%nat [].

(** A post call whose second attempt is cancelled. *)
Definition post_second_cancelled : post_call :=
  fun idx _ _ =>
    match idx with
    | O => Ok true
    | _ => Exc CancelledError
    end.
(** * Properties *)

(** ** Reasoning about monadic code *)

Ltac unfold_monad :=
  unfold with_lock, finally, try_except, save_progress, put_upload, put_comment,
    cancel, run_coroutine_threadsafe, sessions_setitem, mutate, new_session,
    emit, modify, gets, lift, raise, bind, ret in *.

Lemma bind_ok {A B} (m : M A) (k : A → M B) (w w' : World) (a : A) :
  m w = (Ok a, w') → bind m k w = k a w'.
Proof. intros H. unfold bind. by rewrite H. Qed.

Lemma bind_exc {A B} (m : M A) (k : A → M B) (w w' : World) (e : exn) :
  m w = (Exc e, w') → bind m k w = (Exc e, w').
Proof. intros H. unfold bind. by rewrite H. Qed.

Lemma new_events_app (w w' : World) (l : list Event) :
  trace w' = trace w ++ l → new_events w w' = l.
Proof. intros H. unfold new_events. rewrite H. apply drop_app_length. Qed.

Lemma new_events_same (w w' : World) :
  trace w' = trace w → new_events w w' = [].
Proof. intros H. apply new_events_app. by rewrite app_nil_r. Qed.

(** ** The embedding on concrete values *)

Example toordinal_2021_03_01 :
  Datetime.toordinal (Datetime.mk 2021 3 1 0 0 0 0) = 737850.
Proof. reflexivity. Qed.

Example sub_past_from_present :
  datetime_sub noon two_past_noon = Timedelta.mk (-1) 86280 0.
Proof. reflexivity. Qed.

Example sub_present_from_past :
  datetime_sub two_past_noon noon = Timedelta.mk 0 120 0.
Proof. reflexivity. Qed.

Example format_year : format_space_zero 5 2021 = " 2021".
Proof. reflexivity. Qed.

Example format_month : format_space_zero 3 3 = " 03".
Proof. reflexivity. Qed.

(** ** Save file: persisting and loading *)

Lemma comment_task_from_to_dict (c : CommentTask.t) :
  SaveDoc.comment_task_from_dict (SaveDoc.comment_task_to_dict c) = Ok c.
Proof.
  destruct c as [sid sc he [sd jct]].
  unfold SaveDoc.comment_task_from_dict, SaveDoc.comment_task_to_dict, SaveDoc.getitem.
  cbn [CommentTask.session_id CommentTask.sc_path CommentTask.he_path
       CommentTask.verify Verify.sessdata Verify.csrf].
  repeat (rewrite ?lookup_insert_eq; rewrite ?lookup_insert_ne by done).
  reflexivity.
Qed.

Lemma comment_tasks_from_to_dicts (l : list CommentTask.t) :
  SaveDoc.comment_tasks_from_dicts (map SaveDoc.comment_task_to_dict l) = Ok l.
Proof.
  induction l as [|c l IH]; [done|].
  cbn [map SaveDoc.comment_tasks_from_dicts].
  by rewrite comment_task_from_to_dict, IH.
Qed.

Lemma from_dict_to_dict (s : TaskSave.t) :
  SaveDoc.from_dict (SaveDoc.to_dict s) = Ok s.
Proof.
  destruct s as [m l]. unfold SaveDoc.from_dict, SaveDoc.to_dict.
  cbn [SaveDoc.active_comment_tasks SaveDoc.session_id_map
       TaskSave.active_comment_tasks TaskSave.session_id_map].
  by rewrite comment_tasks_from_to_dicts.
Qed.

(** C9. Persisting a SaveState and loading it back yields the same
    SaveState: whatever the state [s] held by the manager when
    [save_progress] runs, and whatever [self.save] holds when the save file
    is loaded afterwards (a restarted process), [load] succeeds and leaves
    [self.save] equal to [s]. The empty state is one instance. *)
Theorem save_load_roundtrip (s stale : TaskSave.t) (w : World) :
  let persisted := snd (save_progress (set_save s w)) in
  save_file persisted = Some (SaveDoc.to_dict s)
  ∧ fst (load (set_save stale persisted)) = Ok tt
  ∧ save (snd (load (set_save stale persisted))) = s
  ∧ fst (load (set_save stale (snd (save_progress (set_save TaskSave.empty w))))) = Ok tt
  ∧ save (snd (load (set_save stale (snd (save_progress (set_save TaskSave.empty w))))))
    = TaskSave.empty.
Proof.
  assert (Hgen : ∀ s0 : TaskSave.t,
    fst (load (set_save stale (snd (save_progress (set_save s0 w))))) = Ok tt
    ∧ save (snd (load (set_save stale (snd (save_progress (set_save s0 w)))))) = s0).
  { intros s0. unfold load. unfold_monad. cbn.
    rewrite from_dict_to_dict. cbn. done. }
  cbn zeta. split; [reflexivity|].
  destruct (Hgen s) as [H1 H2]. destruct (Hgen TaskSave.empty) as [H3 H4].
  done.
Qed.

(** ** Unknown sessions *)

(** C7. A lifecycle event whose type is not SessionStarted and whose
    session id is not in the registry is reported and dropped: the call
    returns normally, the registry, every Session object, both queues, the
    save state and the save file are unchanged, no workflow is launched, and
    the only effect is the printed report. *)
Theorem unknown_session_dropped (now : nat → Datetime.t) (u : Update.t) (w : World) :
  Update.EventType u ≠ "SessionStarted" →
  dict_get (Update.SessionId u) (sessions w) = None →
  let w' := snd (handle_update now u w) in
  fst (handle_update now u w) = Ok tt
  ∧ sessions w' = sessions w
  ∧ heap w' = heap w
  ∧ video_upload_queue w' = video_upload_queue w
  ∧ comment_post_queue w' = comment_post_queue w
  ∧ save w' = save w
  ∧ save_file w' = save_file w
  ∧ next_future w' = next_future w
  ∧ trace w' = trace w ++
      [EvPrint (MsgCannotFind (Update.RoomId u) (Update.SessionId u) u)].
Proof.
  intros Htype Hget. unfold handle_update.
  destruct (String.eqb (Update.EventType u) "SessionStarted") eqn:E.
  { apply String.eqb_eq in E. contradiction. }
  unfold_monad. rewrite Hget. cbn. done.
Qed.

Lemma unknown_session_dropped_witness :
  let w' := snd (handle_update (steady (Datetime.mk 2021 3 1 12 0 1 0)) stray_file_closed
                               world_one_session) in
  fst (handle_update (steady (Datetime.mk 2021 3 1 12 0 1 0)) stray_file_closed
                     world_one_session) = Ok tt
  ∧ sessions w' = sessions world_one_session
  ∧ heap w' = heap world_one_session
  ∧ video_upload_queue w' = video_upload_queue world_one_session
  ∧ comment_post_queue w' = comment_post_queue world_one_session
  ∧ save w' = save world_one_session
  ∧ save_file w' = save_file world_one_session
  ∧ next_future w' = next_future world_one_session
  ∧ trace w' = trace world_one_session ++
      [EvPrint (MsgCannotFind 100 "unseen" stray_file_closed)].
Proof.
  apply (unknown_session_dropped (steady (Datetime.mk 2021 3 1 12 0 1 0))
           stray_file_closed world_one_session).
  - discriminate.
  - reflexivity.
Defined.

(** ** The upload worker *)

(** C2 (as amended). When the upload call of the task at the head of the
    queue fails with an exception that is an [Exception], the iteration ends
    normally and
    - if the task's [trial] is below 5, the task is put back at the tail of
      the queue with [trial] increased by exactly 1, and a retry is reported;
    - otherwise (in particular when [trial] equals 5) the task is not put
      back and the terminal failure is reported;
    so the task is re-enqueued if and only if [trial < 5]; the save state and
    the save file are untouched. When the exception is not an [Exception]
    (a cancellation, a keyboard interrupt) the handler is not entered: the
    exception leaves the worker loop, and the task, already taken from the
    queue, is neither put back nor reported. *)
Theorem upload_failure_requeues_below_five
    (upload : upload_call) (w : World) (task : UploadTask.t)
    (q : list UploadTask.t) (e : exn) :
  video_upload_queue w = task :: q →
  upload task (TaskSave.session_id_map (save w)) = Exc e →
  (is_Exception e = true →
   ∃ w',
     video_uploader_iter upload w = Some (Ok tt, w')
     ∧ save w' = save w
     ∧ save_file w' = save_file w
     ∧ (UploadTask.trial task < 5 →
          let task' := UploadTask.set_trial (UploadTask.trial task + 1) task in
          UploadTask.trial task' = UploadTask.trial task + 1
          ∧ video_upload_queue w' = q ++ [task']
          ∧ trace w' = trace w ++
              [EvPutUpload task';
               EvPrint (MsgUploadFailedRetrying (UploadTask.title task));
               EvTraceback])
     ∧ (5 ≤ UploadTask.trial task →
          video_upload_queue w' = q
          ∧ trace w' = trace w ++
              [EvPrint (MsgUploadFailedTooManyTimes (UploadTask.title task));
               EvTraceback])
     ∧ (upload_puts (drop (length (trace w)) (trace w')) ≠ []
        ↔ UploadTask.trial task < 5))
  ∧ (is_Exception e = false →
     video_uploader_iter upload w = Some (Exc e, set_video_upload_queue q w)).
Proof.
  intros Hq Hup. unfold video_uploader_iter. rewrite Hq.
  unfold video_uploader_body. unfold_monad. cbn. rewrite Hup.
  split; intros ->; [|reflexivity].
  destruct (UploadTask.trial task <? 5) eqn:E.
  - apply Z.ltb_lt in E. eexists. split; [reflexivity|]. cbn.
    rewrite <- !app_assoc, drop_app_length. cbn.
    repeat split; intros; try done; try lia.
  - apply Z.ltb_ge in E. eexists. split; [reflexivity|]. cbn.
    rewrite <- !app_assoc, drop_app_length. cbn.
    repeat split; intros; try done; try lia.
Qed.

Lemma upload_failure_requeues_below_five_witness :
  ∃ w',
    video_uploader_iter upload_always_fails
      (world_with_uploads [sample_task 4; other_task]) = Some (Ok tt, w')
    ∧ video_upload_queue w' = [other_task; sample_task 5].
Proof.
  destruct (upload_failure_requeues_below_five upload_always_fails
              (world_with_uploads [sample_task 4; other_task])
              (sample_task 4) [other_task] (Exception "network")
              eq_refl eq_refl) as [Hcaught _].
  destruct (Hcaught eq_refl) as (w' & Hstep & _ & _ & Hlt & _ & _).
  exists w'. split; [exact Hstep|].
  destruct Hlt as (_ & Hqueue & _); [cbn; lia|]. exact Hqueue.
Defined.

(** The upload of a task with [trial = 0] is cancelled: the task has left
    the queue and is not put back, although its [trial] is below 5, and the
    exception leaves the worker. *)
Lemma cancelled_upload_is_not_requeued :
  UploadTask.trial (sample_task 0) < 5
  ∧ upload_cancelled (sample_task 0) ∅ = Exc CancelledError
  ∧ video_uploader_iter upload_cancelled
      (world_with_uploads [sample_task 0; other_task])
    = Some (Exc CancelledError, world_with_uploads [other_task])
  ∧ ¬ (∃ t, In t (video_upload_queue (world_with_uploads [other_task]))
            ∧ UploadTask.session_id t = UploadTask.session_id (sample_task 0)).
Proof.
  split; [cbn; lia|]. split; [reflexivity|]. split; [reflexivity|].
  intros (t & [<-|[]] & Ht). discriminate Ht.
Qed.

(** A task that fails six times in a row is retried five times and then
    dropped; the id map is never touched. *)
Example six_failures_drop_the_task :
  let w' := video_uploader_run (replicate 6 upload_always_fails)
                               (world_with_uploads [sample_task 0]) in
  video_upload_queue w' = []
  ∧ upload_puts (trace w')
    = [sample_task 1; sample_task 2; sample_task 3; sample_task 4; sample_task 5]
  ∧ last (trace w') = Some EvTraceback
  ∧ In (EvPrint (MsgUploadFailedTooManyTimes "a title")) (trace w')
  ∧ save w' = TaskSave.empty.
Proof.
  cbn zeta. repeat split; try reflexivity.
  vm_compute. do 15 right. left. reflexivity.
Qed.

(** C3. When the upload call of the task at the head of the queue returns
    a published id, the same iteration, holding the save lock, stores
    [session_id_map[task.session_id] = id] and overwrites the save file with
    the whole resulting SaveState, before the lock is released and before
    any other task is taken from the queue. *)
Theorem upload_success_recorded_and_persisted
    (upload : upload_call) (w : World) (task : UploadTask.t)
    (q : list UploadTask.t) (bv_id : string) :
  video_upload_queue w = task :: q →
  upload task (TaskSave.session_id_map (save w)) = Ok bv_id →
  ∃ w',
    video_uploader_iter upload w = Some (Ok tt, w')
    ∧ TaskSave.session_id_map (save w')
      = <[UploadTask.session_id task := bv_id]> (TaskSave.session_id_map (save w))
    ∧ TaskSave.session_id_map (save w') !! UploadTask.session_id task = Some bv_id
    ∧ TaskSave.active_comment_tasks (save w') = TaskSave.active_comment_tasks (save w)
    ∧ save_file w' = Some (SaveDoc.to_dict (save w'))
    ∧ trace w' = trace w ++ [EvAcquire; EvWrite (SaveDoc.to_dict (save w')); EvRelease]
    ∧ video_upload_queue w' = q.
Proof.
  intros Hq Hup. unfold video_uploader_iter. rewrite Hq.
  unfold video_uploader_body. unfold_monad. cbn. rewrite Hup. cbn.
  eexists. split; [reflexivity|]. cbn.
  repeat split; try done.
  - apply lookup_insert_eq.
  - by rewrite <- !app_assoc.
Qed.

Lemma upload_success_recorded_and_persisted_witness :
  ∃ w',
    video_uploader_iter upload_always_succeeds
      (world_with_uploads [sample_task 0; other_task]) = Some (Ok tt, w')
    ∧ TaskSave.session_id_map (save w') !! "s1" = Some "BV1xx"
    ∧ save_file w' = Some (SaveDoc.to_dict (save w'))
    ∧ video_upload_queue w' = [other_task].
Proof.
  destruct (upload_success_recorded_and_persisted upload_always_succeeds
              (world_with_uploads [sample_task 0; other_task])
              (sample_task 0) [other_task] "BV1xx" eq_refl eq_refl)
    as (w' & Hstep & _ & Hmap & _ & Hfile & _ & Hqueue).
  exists w'. repeat split; assumption.
Defined.

(** ** The continuation test of [handle_update] *)
Lemma continuation_test_spec (s : Z) :
  Qltb (inject_Z s / inject_Z 60) (inject_Z CONTINUE_SESSION_MINUTES) = (s <? 300).
Proof.
  unfold Qltb, Qle_bool, CONTINUE_SESSION_MINUTES. cbn.
  destruct (Z.leb_spec (5 * Z.pos (1 * 60)) (s * 1 * 1)), (Z.ltb_spec s 300); cbn; lia.
Qed.

Ltac unfold_timedelta :=
  unfold total_microseconds, Timedelta.make;
  cbv beta iota zeta delta
    [Timedelta.days Timedelta.seconds Timedelta.microseconds].

Lemma make_total (d s us : Z) :
  total_microseconds (Timedelta.make d s us) = (d * 86400 + s) * 1000000 + us.
Proof.
  unfold_timedelta. Z.div_mod_to_equations. lia.
Qed.

Lemma make_bounds (d s us : Z) :
  0 <= Timedelta.seconds (Timedelta.make d s us) < 86400 /\
  0 <= Timedelta.microseconds (Timedelta.make d s us) < 1000000.
Proof.
  unfold_timedelta. Z.div_mod_to_equations. lia.
Qed.

Lemma sub_total_antisym (a b : Datetime.t) :
  total_microseconds (datetime_sub a b) = - total_microseconds (datetime_sub b a).
Proof.
  unfold datetime_sub. rewrite !make_total. lia.
Qed.

Lemma seconds_of_recent_past (a now : Datetime.t) :
  0 < total_microseconds (datetime_sub now a) < 300 * 1000000 →
  86100 <= Timedelta.seconds (datetime_sub a now).
Proof.
  intros H. rewrite (sub_total_antisym now a) in H.
  unfold datetime_sub in *.
  pose proof (make_bounds (Datetime.toordinal a - Datetime.toordinal now)
     (Datetime.second a + Datetime.minute a * 60 + Datetime.hour a * 3600 -
      (Datetime.second now + Datetime.minute now * 60 + Datetime.hour now * 3600))
     (Datetime.microsecond a - Datetime.microsecond now)) as [Hs Hu].
  unfold total_microseconds in H.
  lia.
Qed.

(** One step of the loop, on a session of the heap: [clock k] is read when
    the session is of the event's room. *)
Lemma continue_session_cons (clock : nat → Datetime.t) (k : nat) (room_id : Z)
    (session_id : string) (r : ref) (rest : list ref) (w : World) (s : Session.t) :
  heap w !! r = Some s →
  continue_session clock k room_id session_id (r :: rest) w
  = if Session.room_id s =? room_id then
      match continuation_test (clock k) room_id s with
      | Some false => continue_session clock (S k) room_id session_id rest w
      | Some true => (Ok true, aliased session_id r s w)
      | None => (Exc TypeError, w)
      end
    else continue_session clock k room_id session_id rest w.
Proof.
  intros Hs. cbn [continue_session]. unfold deref at 1. unfold bind at 1.
  rewrite Hs. unfold continuation_test.
  destruct (Session.room_id s =? room_id); [|reflexivity].
  destruct (Session.end_time s) as [e|]; cbn [py_sub]; [|reflexivity].
  unfold_monad.
  destruct (Qltb _ _); [|reflexivity].
  unfold aliased, cancel_events.
  destruct (Session.upload_task s); unfold set_trace, set_sessions; cbn;
    rewrite ?app_nil_r; reflexivity.
Qed.

Lemma continue_session_dangling (clock : nat → Datetime.t) (k : nat) (room_id : Z)
    (session_id : string) (r : ref) (rest : list ref) (w : World) :
  heap w !! r = None →
  continue_session clock k room_id session_id (r :: rest) w
  = (Exc DanglingReference, w).
Proof.
  intros Hs. cbn [continue_session]. unfold deref at 1. unfold bind at 1.
  by rewrite Hs.
Qed.

Lemma handle_update_started (clock : nat → Datetime.t) (u : Update.t) (w : World) :
  Update.EventType u = "SessionStarted" →
  handle_update clock u w
  = match continue_session clock 0 (Update.RoomId u) (Update.SessionId u)
                           (dict_values (sessions w)) w with
    | (Ok true, w') => (Ok tt, w')
    | (Ok false, w') => (Ok tt, registered_new u w')
    | (Exc e, w') => (Exc e, w')
    end.
Proof.
  intros Htype. unfold handle_update. rewrite Htype.
  change (String.eqb "SessionStarted" "SessionStarted") with true. cbv iota.
  unfold gets at 1. unfold bind at 1. unfold bind at 1.
  destruct (continue_session _ _ _ _ _ w) as [[[]|e] w']; reflexivity.
Qed.

(** The test is false on a session that ended strictly in the past, less
    than five minutes before the reading of the clock. *)
Lemma continuation_test_inside_window (now : Datetime.t) (room_id : Z)
    (s : Session.t) (e : Datetime.t) :
  Session.end_time s = Some e →
  0 < total_microseconds (datetime_sub now e) < 300 * 1000000 →
  continuation_test now room_id s = Some false.
Proof.
  intros He Hgap. unfold continuation_test.
  destruct (Session.room_id s =? room_id); [|reflexivity].
  rewrite He. cbn [py_sub]. rewrite continuation_test_spec.
  pose proof (seconds_of_recent_past e now Hgap) as Hsec.
  destruct (Z.ltb_spec (Timedelta.seconds (datetime_sub e now)) 300); [lia|done].
Qed.

(** The loop finds no candidate when every registered session of the room
    ended strictly in the past, less than five minutes before every reading
    of the clock. *)
Lemma continue_session_inside_window (clock : nat → Datetime.t) (room_id : Z)
    (session_id : string) (w : World) (values : list ref) (k : nat) :
  (∀ r, In r values →
     ∃ s, heap w !! r = Some s
          ∧ (Session.room_id s = room_id →
             ∃ e, Session.end_time s = Some e
                  ∧ ∀ j, 0 < total_microseconds (datetime_sub (clock j) e)
                         < 300 * 1000000)) →
  continue_session clock k room_id session_id values w = (Ok false, w).
Proof.
  revert k. induction values as [|r rest IH]; intros k Hall; [reflexivity|].
  destruct (Hall r (or_introl eq_refl)) as (s & Hs & Hroom).
  rewrite (continue_session_cons _ _ _ _ _ _ _ _ Hs).
  destruct (Z.eqb_spec (Session.room_id s) room_id) as [E|E].
  - destruct (Hroom E) as (e & He & Hgap).
    rewrite (continuation_test_inside_window _ _ _ e He (Hgap k)).
    apply IH. intros r' Hr'. apply Hall. by right.
  - apply IH. intros r' Hr'. apply Hall. by right.
Qed.

(** What the code does for a restart inside the continuation window: a
    [SessionStarted] event that arrives when every registered session of its
    room ended less than five minutes ago is not merged; a new Session
    object is allocated and registered, and nothing is cancelled. *)
Lemma session_started_inside_window_not_merged (clock : nat → Datetime.t)
    (u : Update.t) (w : World) :
  Update.EventType u = "SessionStarted" →
  (∀ r, In r (dict_values (sessions w)) →
     ∃ s, heap w !! r = Some s
          ∧ (Session.room_id s = Update.RoomId u →
             ∃ e, Session.end_time s = Some e
                  ∧ ∀ j, 0 < total_microseconds (datetime_sub (clock j) e)
                         < 300 * 1000000)) →
  handle_update clock u w = (Ok tt, registered_new u w).
Proof.
  intros Htype Hall. rewrite (handle_update_started clock u w Htype).
  by rewrite (continue_session_inside_window clock _ _ w _ 0%nat Hall).
Qed.

(** What the code does when its own test passes on the first registered
    session: the new id is aliased to that object, no Session is allocated,
    and the stored workflow handle, if any, is cancelled. *)
Lemma session_started_aliases_when_test_passes (clock : nat → Datetime.t)
    (u : Update.t) (w : World) (k : string) (r : ref) (rest : list (string * ref))
    (s : Session.t) (e : Datetime.t) :
  Update.EventType u = "SessionStarted" →
  sessions w = (k, r) :: rest →
  heap w !! r = Some s →
  Session.room_id s = Update.RoomId u →
  Session.end_time s = Some e →
  Timedelta.seconds (datetime_sub e (clock 0%nat)) < 300 →
  handle_update clock u w = (Ok tt, aliased (Update.SessionId u) r s w).
Proof.
  intros Htype Hsess Hs Hroom He Hsec.
  rewrite (handle_update_started clock u w Htype), Hsess.
  cbn [dict_values map snd].
  rewrite (continue_session_cons _ _ _ _ _ _ _ _ Hs).
  unfold continuation_test. rewrite Hroom, Z.eqb_refl, He. cbn [py_sub].
  rewrite continuation_test_spec.
  by destruct (Z.ltb_spec (Timedelta.seconds (datetime_sub e (clock 0%nat))) 300);
    [|lia].
Qed.

(** A registered session of the room that is still recording stops the
    scan with [TypeError]: nothing is registered for the new id. *)
Lemma session_started_raises_on_unset_end_time (clock : nat → Datetime.t)
    (u : Update.t) (w : World) (k : string) (r : ref) (rest : list (string * ref))
    (s : Session.t) :
  Update.EventType u = "SessionStarted" →
  sessions w = (k, r) :: rest →
  heap w !! r = Some s →
  Session.room_id s = Update.RoomId u →
  Session.end_time s = None →
  handle_update clock u w = (Exc TypeError, w).
Proof.
  intros Htype Hsess Hs Hroom He.
  rewrite (handle_update_started clock u w Htype), Hsess.
  cbn [dict_values map snd].
  rewrite (continue_session_cons _ _ _ _ _ _ _ _ Hs).
  unfold continuation_test. by rewrite Hroom, Z.eqb_refl, He.
Qed.

(** ** The comment worker *)

Lemma enumerate_from_cons {A} (idx : nat) (x : A) (l : list A) :
  enumerate_from idx (x :: l) = (idx, x) :: enumerate_from (S idx) l.
Proof. reflexivity. Qed.

Lemma enumerate_from_In {A} (l : list A) (idx : nat) (x : A) :
  In x l → ∃ i, In (i, x) (enumerate_from idx l).
Proof.
  revert idx. induction l as [|y l IH]; intros idx; [by intros []|].
  rewrite enumerate_from_cons. intros [->|H].
  - exists idx. by left.
  - destruct (IH (S idx) H) as [i Hi]. exists i. by right.
Qed.

Lemma successes_ge (post : post_call) (m : gmap string string)
    (tasks : list CommentTask.t) (idx j : nat) :
  In j (successes post m idx tasks) → (idx <= j)%nat.
Proof.
  revert idx. induction tasks as [|t rest IH]; intros idx; [by intros []|].
  cbn [successes]. rewrite in_app_iff. intros [H|H].
  - destruct (reports_success post m idx t); [|by destruct H].
    destruct H as [<-|[]]. lia.
  - apply IH in H. lia.
Qed.

(** The attempts never change the world. *)
Lemma post_all_no_raise (post : post_call) (tasks : list CommentTask.t)
    (idx : nat) (acc : list nat) (w : World) :
  existsb (fun p => attempt_raises post (TaskSave.session_id_map (save w)) (fst p) (snd p))
          (enumerate_from idx tasks) = false →
  post_all post idx tasks acc w
  = (Ok (acc ++ successes post (TaskSave.session_id_map (save w)) idx tasks), w).
Proof.
  revert idx acc. induction tasks as [|t rest IH]; intros idx acc H.
  - cbn. by rewrite app_nil_r.
  - rewrite enumerate_from_cons in H. cbn [existsb fst snd] in H.
    apply orb_false_iff in H as [Hhd Htl].
    cbn [post_all successes]. unfold_monad.
    unfold attempt_raises in Hhd. unfold reports_success.
    destruct (post idx t (TaskSave.session_id_map (save w))) as [b|e]; [|done].
    rewrite (IH (S idx) _ Htl). destruct b; [|by rewrite app_nil_l].
    by rewrite <- app_assoc.
Qed.

Lemma filter_successes (post : post_call) (m : gmap string string)
    (tasks : list CommentTask.t) (idx : nat) (pre : list nat) :
  (∀ j, In j pre → (j < idx)%nat) →
  List.filter (fun p => negb (existsb (Nat.eqb (fst p)) (pre ++ successes post m idx tasks)))
              (enumerate_from idx tasks)
  = List.filter (fun p => negb (reports_success post m (fst p) (snd p)))
                (enumerate_from idx tasks).
Proof.
  revert idx pre. induction tasks as [|t rest IH]; intros idx pre Hpre; [done|].
  rewrite enumerate_from_cons. cbn [List.filter successes fst snd].
  assert (Hhead : existsb (Nat.eqb idx)
            (pre ++ (if reports_success post m idx t then [idx] else [])
                 ++ successes post m (S idx) rest)
          = reports_success post m idx t).
  { destruct (reports_success post m idx t).
    - rewrite existsb_app. cbn. rewrite Nat.eqb_refl. by rewrite orb_true_r.
    - cbn [app]. apply not_true_is_false. intros Hex.
      apply existsb_exists in Hex as (j & Hj & Hjeq).
      apply Nat.eqb_eq in Hjeq. subst j.
      apply in_app_iff in Hj as [Hj|Hj].
      + apply Hpre in Hj. lia.
      + apply successes_ge in Hj. lia. }
  rewrite Hhead. rewrite app_assoc.
  rewrite (IH (S idx) (pre ++ (if reports_success post m idx t then [idx] else []))).
  - reflexivity.
  - intros j Hj. apply in_app_iff in Hj as [Hj|Hj].
    + apply Hpre in Hj. lia.
    + destruct (reports_success post m idx t); [|by destruct Hj].
      destruct Hj as [<-|[]]. lia.
Qed.

Lemma keep_not_in_successes (post : post_call) (m : gmap string string)
    (tasks : list CommentTask.t) :
  keep_not_in (successes post m 0 tasks) tasks = unposted post m tasks.
Proof.
  unfold keep_not_in, unposted. f_equal.
  apply (filter_successes post m tasks 0%nat []). by intros j [].
Qed.

Lemma unposted_keeps (post : post_call) (m : gmap string string)
    (tasks : list CommentTask.t) (t : CommentTask.t) :
  In t tasks →
  (∀ i, reports_success post m i t = false) →
  In t (unposted post m tasks).
Proof.
  intros Hin Hfail. destruct (enumerate_from_In tasks 0%nat t Hin) as [i Hi].
  unfold unposted. apply in_map_iff. exists (i, t). split; [done|].
  apply filter_In. split; [exact Hi|]. cbn. by rewrite Hfail.
Qed.

(** The drain phase moves every queued task to the end of the active list
    and leaves the id map alone. *)
Lemma drain_spec (q : list CommentTask.t) (w : World) :
  ∃ w',
    drain q w = (Ok tt, w')
    ∧ TaskSave.session_id_map (save w') = TaskSave.session_id_map (save w)
    ∧ TaskSave.active_comment_tasks (save w')
      = TaskSave.active_comment_tasks (save w) ++ q.
Proof.
  revert w. induction q as [|c rest IH]; intros w.
  - exists w. cbn. by rewrite app_nil_r.
  - cbn [drain]. unfold_monad.
    match goal with
    | |- ∃ w', drain rest ?w1 = _ ∧ _ => destruct (IH w1) as (w' & Hd & Hm & Ha)
    end.
    exists w'. split; [exact Hd|]. cbn in Hm, Ha.
    split; [exact Hm|]. rewrite Ha. by rewrite <- app_assoc.
Qed.

Lemma drain_phase (w : World) :
  ∃ w',
    with_lock (let* q := gets comment_post_queue in drain q) w = (Ok tt, w')
    ∧ TaskSave.session_id_map (save w') = TaskSave.session_id_map (save w)
    ∧ TaskSave.active_comment_tasks (save w') = attempted w
    ∧ (comment_post_queue w = [] →
       w' = set_trace (trace w ++ [EvAcquire; EvRelease]) w).
Proof.
  unfold with_lock, finally, emit, modify, gets.
  unfold bind at 1. unfold bind at 1.
  destruct (drain_spec (comment_post_queue (set_trace (trace w ++ [EvAcquire]) w))
                       (set_trace (trace w ++ [EvAcquire]) w))
    as (w1 & Hd & Hm & Ha).
  rewrite Hd. eexists. split; [reflexivity|]. cbn.
  split; [exact Hm|]. split; [exact Ha|].
  intros Hq. cbn in Hd. rewrite Hq in Hd. cbn in Hd.
  injection Hd as <-. cbn. by rewrite <- app_assoc.
Qed.

(** The attempts and the removal, when no attempt raises and the active
    list is not empty: the removal always runs and always persists. *)
Lemma post_and_remove_no_raise (post : post_call) (w : World) :
  TaskSave.active_comment_tasks (save w) ≠ [] →
  any_raises post (TaskSave.session_id_map (save w))
             (TaskSave.active_comment_tasks (save w)) = false →
  let save' :=
    TaskSave.set_active_comment_tasks
      (unposted post (TaskSave.session_id_map (save w))
                (TaskSave.active_comment_tasks (save w)))
      (save w) in
  post_and_remove post w
  = (Ok tt,
     set_trace (trace w ++ [EvAcquire; EvWrite (SaveDoc.to_dict save'); EvRelease])
       (set_save_file (Some (SaveDoc.to_dict save')) (set_save save' w))).
Proof.
  intros Hne Hraise. unfold post_and_remove.
  unfold gets at 1. unfold bind at 1.
  assert (Hlen : negb (Nat.eqb (length (TaskSave.active_comment_tasks (save w))) 0) = true)
    by (by destruct (TaskSave.active_comment_tasks (save w))).
  rewrite Hlen. unfold bind at 1.
  rewrite (post_all_no_raise post _ 0%nat [] w Hraise).
  cbn [app list_ne_int]. cbv iota.
  unfold_monad. cbn. rewrite keep_not_in_successes.
  by rewrite <- !app_assoc.
Qed.

Lemma post_and_remove_empty (post : post_call) (w : World) :
  TaskSave.active_comment_tasks (save w) = [] →
  post_and_remove post w = (Ok tt, w).
Proof.
  intros Hact. unfold post_and_remove. unfold gets at 1. unfold bind at 1.
  by rewrite Hact.
Qed.

Lemma set_active_app_nil (s : TaskSave.t) :
  TaskSave.set_active_comment_tasks (TaskSave.active_comment_tasks s ++ []) s = s.
Proof. destruct s. unfold TaskSave.set_active_comment_tasks. cbn. by rewrite app_nil_r. Qed.

(** The drain loop in full: one write per drained task. *)
Lemma drain_full (q : list CommentTask.t) (w : World) :
  ∃ docs,
    length docs = length q
    ∧ fst (drain q w) = Ok tt
    ∧ trace (snd (drain q w)) = trace w ++ map EvWrite docs
    ∧ save (snd (drain q w))
      = TaskSave.set_active_comment_tasks
          (TaskSave.active_comment_tasks (save w) ++ q) (save w)
    ∧ save_file (snd (drain q w))
      = match q with
        | [] => save_file w
        | _ => Some (SaveDoc.to_dict (save (snd (drain q w))))
        end
    ∧ comment_post_queue (snd (drain q w))
      = match q with [] => comment_post_queue w | _ => [] end
    ∧ sessions (snd (drain q w)) = sessions w
    ∧ heap (snd (drain q w)) = heap w
    ∧ video_upload_queue (snd (drain q w)) = video_upload_queue w
    ∧ next_future (snd (drain q w)) = next_future w.
Proof.
  revert w. induction q as [|c rest IH]; intros w.
  - exists []. cbn. rewrite app_nil_r, set_active_app_nil. done.
  - cbn [drain]. unfold_monad.
    match goal with
    | |- context [drain rest ?w1] =>
        destruct (IH w1) as (docs & Hlen & Hok & Htr & Hsave & Hfile & Hq & Hse & Hh & Hu & Hn);
        set (w1' := w1) in *
    end.
    destruct (drain rest w1') as [r w2] eqn:Hd. cbn [fst snd] in *. subst r.
    exists (SaveDoc.to_dict (save w1') :: docs).
    split; [cbn; by rewrite Hlen|]. split; [done|].
    split; [rewrite Htr; subst w1'; cbn; by rewrite <- app_assoc|].
    split; [rewrite Hsave; subst w1'; cbn; by rewrite <- app_assoc|].
    split.
    { destruct rest; [|exact Hfile].
      rewrite Hfile, Hsave. subst w1'. cbn. by rewrite app_nil_r. }
    split; [destruct rest; rewrite Hq; subst w1'; reflexivity|].
    subst w1'. cbn in *. done.
Qed.

Lemma lock_ok_writes (docs : list SaveDoc.t) (rest : list Event) :
  lock_ok true (map EvWrite docs ++ rest) = lock_ok true rest.
Proof. induction docs as [|d docs IH]; cbn; done. Qed.

Lemma writes_app (l1 l2 : list Event) : writes (l1 ++ l2) = writes l1 ++ writes l2.
Proof.
  induction l1 as [|e l1 IH]; [done|]. destruct e; cbn; rewrite ?IH; done.
Qed.

Lemma writes_map (docs : list SaveDoc.t) : writes (map EvWrite docs) = docs.
Proof. induction docs as [|d docs IH]; cbn; [done|]. by rewrite IH. Qed.

Lemma first_exception_none (post : post_call) (m : gmap string string)
    (tasks : list CommentTask.t) (idx : nat) :
  first_exception post m idx tasks = None
  ↔ existsb (fun p => attempt_raises post m (fst p) (snd p))
            (enumerate_from idx tasks) = false.
Proof.
  revert idx. induction tasks as [|t rest IH]; intros idx; [done|].
  rewrite enumerate_from_cons. cbn [first_exception existsb fst snd].
  unfold attempt_raises at 1. destruct (post idx t m); cbn; [apply IH|done].
Qed.

Lemma post_all_first_exception (post : post_call) (tasks : list CommentTask.t)
    (idx : nat) (acc : list nat) (w : World) (e : exn) :
  first_exception post (TaskSave.session_id_map (save w)) idx tasks = Some e →
  post_all post idx tasks acc w = (Exc e, w).
Proof.
  revert idx acc. induction tasks as [|t rest IH]; intros idx acc H; [done|].
  cbn [post_all first_exception] in *. unfold_monad.
  destruct (post idx t (TaskSave.session_id_map (save w))) as [b|e'].
  - by apply IH.
  - by injection H as ->.
Qed.

(** The second half of a cycle, by outcome. *)
Lemma post_and_remove_outcome (post : post_call) (w : World) :
  post_and_remove post w
  = match cycle_outcome post (TaskSave.session_id_map (save w))
                        (TaskSave.active_comment_tasks (save w)) with
    | NothingToPost => (Ok tt, w)
    | Aborted e => (Exc e, w)
    | Removed remaining =>
        let save' := TaskSave.set_active_comment_tasks remaining (save w) in
        (Ok tt,
         set_trace (trace w ++ [EvAcquire; EvWrite (SaveDoc.to_dict save'); EvRelease])
           (set_save_file (Some (SaveDoc.to_dict save')) (set_save save' w)))
    end.
Proof.
  unfold cycle_outcome.
  destruct (first_exception post _ 0 _) as [e|] eqn:Hfe.
  - unfold post_and_remove. unfold gets at 1. unfold bind at 1.
    assert (Hlen : negb (Nat.eqb (length (TaskSave.active_comment_tasks (save w))) 0)
                   = true).
    { destruct (TaskSave.active_comment_tasks (save w)); [discriminate Hfe|done]. }
    rewrite Hlen. unfold bind at 1.
    by rewrite (post_all_first_exception post _ 0%nat [] w e Hfe).
  - apply first_exception_none in Hfe.
    destruct (TaskSave.active_comment_tasks (save w)) as [|t rest] eqn:Hact.
    + by apply post_and_remove_empty.
    + rewrite <- Hact in *.
      apply post_and_remove_no_raise; [by rewrite Hact|exact Hfe].
Qed.

(** The whole cycle: the world it produces. *)
Lemma comment_poster_cycle_shape (post : post_call) (w : World) :
  ∃ w1 docs,
    length docs = length (comment_post_queue w)
    ∧ trace w1 = trace w ++ [EvAcquire] ++ map EvWrite docs ++ [EvRelease]
    ∧ save w1 = TaskSave.set_active_comment_tasks (attempted w) (save w)
    ∧ save_file w1
      = match comment_post_queue w with
        | [] => save_file w
        | _ => Some (SaveDoc.to_dict (save w1))
        end
    ∧ comment_post_queue w1 = []
    ∧ sessions w1 = sessions w
    ∧ heap w1 = heap w
    ∧ video_upload_queue w1 = video_upload_queue w
    ∧ next_future w1 = next_future w
    ∧ comment_poster_cycle post w
      = match cycle_outcome post (TaskSave.session_id_map (save w)) (attempted w) with
        | NothingToPost => (Ok tt, set_trace (trace w1 ++ [EvSleep 60]) w1)
        | Aborted e =>
            if is_Exception e then
              (Ok tt,
               set_trace (trace w1 ++ [EvPrint (MsgUnknownPostingException e);
                                       EvTraceback; EvSleep 60]) w1)
            else (Exc e, set_trace (trace w1 ++ [EvSleep 60]) w1)
        | Removed remaining =>
            let save' := TaskSave.set_active_comment_tasks remaining (save w1) in
            (Ok tt,
             set_trace (trace w1 ++ [EvAcquire; EvWrite (SaveDoc.to_dict save');
                                     EvRelease; EvSleep 60])
               (set_save_file (Some (SaveDoc.to_dict save')) (set_save save' w1)))
        end.
Proof.
  destruct (drain_full (comment_post_queue w) (set_trace (trace w ++ [EvAcquire]) w))
    as (docs & Hlen & Hok & Htr & Hsave & Hfile & Hq & Hse & Hh & Hu & Hn).
  destruct (drain (comment_post_queue w) (set_trace (trace w ++ [EvAcquire]) w))
    as [r w0] eqn:Hd. cbn [fst snd] in *. subst r.
  exists (set_trace (trace w0 ++ [EvRelease]) w0), docs.
  split; [exact Hlen|].
  split; [cbn; rewrite Htr; cbn; by rewrite <- !app_assoc|].
  split; [exact Hsave|].
  split; [cbn; destruct (comment_post_queue w); exact Hfile|].
  split; [cbn in Hq |- *; rewrite Hq; by destruct (comment_post_queue w)|].
  do 4 (split; [done|]).
  unfold comment_poster_cycle.
  assert (Hphase : with_lock (let* q := gets comment_post_queue in drain q) w
                   = (Ok tt, set_trace (trace w0 ++ [EvRelease]) w0)).
  { unfold with_lock, finally, emit, modify, gets.
    unfold bind at 1. unfold bind at 1. cbn [comment_post_queue set_trace].
    cbn in Hd. rewrite Hd. reflexivity. }
  rewrite (bind_ok _ _ _ _ _ Hphase).
  unfold finally, try_except. rewrite post_and_remove_outcome.
  cbn [save set_trace]. rewrite Hsave. cbn [TaskSave.session_id_map
    TaskSave.active_comment_tasks TaskSave.set_active_comment_tasks].
  destruct (cycle_outcome post _ _) as [|remaining|e]; [| |destruct (is_Exception e)];
    unfold_monad; cbn; rewrite <- ?app_assoc; reflexivity.
Qed.

Lemma cycle_outcome_aborted_iff (post : post_call) (m : gmap string string)
    (tasks : list CommentTask.t) :
  any_raises post m tasks = true ↔ ∃ e, cycle_outcome post m tasks = Aborted e.
Proof.
  unfold cycle_outcome, any_raises.
  pose proof (first_exception_none post m tasks 0%nat) as Hnone.
  change (enumerate_from 0 tasks) with (enumerate tasks) in Hnone.
  destruct (first_exception post m 0 tasks) as [e|].
  - split; [by exists e|]. intros _. apply not_false_iff_true. intros H.
    by apply Hnone in H.
  - rewrite (proj1 Hnone eq_refl). split; [done|]. intros [e He].
    by destruct tasks.
Qed.

(** The events of a whole cycle. *)
Lemma comment_poster_cycle_events (post : post_call) (w : World) :
  ∃ docs,
    length docs = length (comment_post_queue w)
    ∧ new_events w (snd (comment_poster_cycle post w))
      = [EvAcquire] ++ map EvWrite docs ++ [EvRelease]
        ++ match cycle_outcome post (TaskSave.session_id_map (save w)) (attempted w) with
           | NothingToPost => []
           | Aborted e =>
               if is_Exception e
               then [EvPrint (MsgUnknownPostingException e); EvTraceback]
               else []
           | Removed remaining =>
               [EvAcquire;
                EvWrite (SaveDoc.to_dict
                           (TaskSave.set_active_comment_tasks remaining (save w)));
                EvRelease]
           end
        ++ [EvSleep 60].
Proof.
  destruct (comment_poster_cycle_shape post w)
    as (w1 & docs & Hlen & Htr & Hsave & _ & _ & _ & _ & _ & _ & Hcycle).
  exists docs. split; [exact Hlen|]. rewrite Hcycle.
  apply new_events_app.
  destruct (cycle_outcome post _ _) as [|remaining|e]; [| |destruct (is_Exception e)];
    cbn [snd trace set_trace set_save_file set_save];
    rewrite Htr, ?Hsave; cbn; repeat (rewrite <- app_assoc; cbn);
    reflexivity.
Qed.

Lemma cycle_outcome_cases (post : post_call) (m : gmap string string)
    (tasks : list CommentTask.t) :
  (any_raises post m tasks = true ∧ ∃ e, cycle_outcome post m tasks = Aborted e)
  ∨ (any_raises post m tasks = false ∧ tasks = []
     ∧ cycle_outcome post m tasks = NothingToPost)
  ∨ (any_raises post m tasks = false ∧ tasks ≠ []
     ∧ cycle_outcome post m tasks = Removed (unposted post m tasks)).
Proof.
  destruct (any_raises post m tasks) eqn:Hany.
  - left. split; [done|]. by apply cycle_outcome_aborted_iff.
  - right. unfold cycle_outcome.
    assert (Hnone : first_exception post m 0 tasks = None)
      by (by apply first_exception_none).
    rewrite Hnone. destruct tasks; [by left|by right].
Qed.

Lemma first_exception_at (post : post_call) (m : gmap string string)
    (tasks : list CommentTask.t) (idx i : nat) (t : CommentTask.t) (e : exn) :
  tasks !! i = Some t →
  post (idx + i)%nat t m = Exc e →
  (∀ j t', (j < i)%nat → tasks !! j = Some t' → ∃ b, post (idx + j)%nat t' m = Ok b) →
  first_exception post m idx tasks = Some e.
Proof.
  revert idx i. induction tasks as [|t0 rest IH]; intros idx i Hi He Hbefore; [done|].
  cbn [first_exception]. destruct i as [|i].
  - cbn in Hi. injection Hi as ->. rewrite Nat.add_0_r in He. by rewrite He.
  - destruct (Hbefore 0%nat t0) as [b Hb]; [lia|done|].
    rewrite Nat.add_0_r in Hb. rewrite Hb.
    apply (IH (S idx) i); [done|by rewrite Nat.add_succ_comm|].
    intros j t' Hj Hj'. rewrite Nat.add_succ_comm. apply Hbefore; [lia|done].
Qed.


(** One cycle: the id map and the active list. *)
Lemma comment_poster_cycle_active (post : post_call) (w : World) :
  let m := TaskSave.session_id_map (save w) in
  let w' := snd (comment_poster_cycle post w) in
  TaskSave.session_id_map (save w') = m
  ∧ TaskSave.active_comment_tasks (save w')
    = if any_raises post m (attempted w) then attempted w
      else unposted post m (attempted w).
Proof.
  cbn zeta.
  destruct (comment_poster_cycle_shape post w)
    as (w1 & docs & _ & _ & Hsave & _ & _ & _ & _ & _ & _ & Hcycle).
  rewrite Hcycle.
  destruct (cycle_outcome_cases post (TaskSave.session_id_map (save w)) (attempted w))
    as [[-> [e ->]]|[(-> & Hnil & ->)|(-> & _ & ->)]].
  - destruct (is_Exception e); cbn; by rewrite Hsave.
  - cbn. rewrite Hsave, Hnil. done.
  - cbn. by rewrite Hsave.
Qed.

(** A task whose attempts never report success survives one cycle. *)
Lemma comment_poster_cycle_keeps (post : post_call) (w : World) (t : CommentTask.t) :
  In t (attempted w) →
  (∀ i m, post i t m ≠ Ok true) →
  In t (TaskSave.active_comment_tasks (save (snd (comment_poster_cycle post w)))).
Proof.
  intros Hin Hfail.
  destruct (comment_poster_cycle_active post w) as (_ & ->).
  destruct (any_raises _ _ _); [exact Hin|].
  apply unposted_keeps; [exact Hin|].
  intros i. unfold reports_success.
  specialize (Hfail i (TaskSave.session_id_map (save w))).
  destruct (post i t (TaskSave.session_id_map (save w))) as [[]|]; done.
Qed.

Lemma comment_poster_cycles_keep (posts : list post_call) (w : World)
    (t : CommentTask.t) :
  In t (TaskSave.active_comment_tasks (save w)) →
  Forall (fun post : post_call => ∀ i m, post i t m ≠ Ok true) posts →
  In t (TaskSave.active_comment_tasks (save (snd (comment_poster_cycles posts w)))).
Proof.
  revert w. induction posts as [|post rest IH]; intros w Hin Hall; [done|].
  apply Forall_cons_iff in Hall as [Hpost Hrest]. cbn [comment_poster_cycles].
  assert (Hatt : In t (attempted w)) by (apply in_app_iff; by left).
  pose proof (comment_poster_cycle_keeps post w t Hatt Hpost) as Hin'.
  unfold bind.
  destruct (comment_poster_cycle post w) as [[[]|e] w1]; cbn in Hin' |- *;
    [by apply IH|exact Hin'].
Qed.

(** C4 (as amended). One cycle of the comment worker, by the first post
    attempt that raises, in the order of the active list:
    - when no attempt raises, the cycle returns normally and the tasks
      removed from [active_comment_tasks] at its end are exactly those whose
      attempt reported success;
    - when an attempt raises, the removal is skipped: [active_comment_tasks]
      is the attempted list, unchanged, the save file is written by the drain
      only, and the cycle still ends with its sleep; an [Exception] is caught
      and logged and the cycle returns normally, while an exception that is not
      an [Exception] (a cancellation) is not logged and leaves the worker.
    And a task of [active_comment_tasks] whose attempts never report success
    is still there after any number of cycles. *)
Theorem comment_task_removed_on_success_without_exception :
  (∀ (post : post_call) (w : World),
     let m := TaskSave.session_id_map (save w) in
     let w' := snd (comment_poster_cycle post w) in
     match first_exception post m 0 (attempted w) with
     | None =>
         fst (comment_poster_cycle post w) = Ok tt
         ∧ TaskSave.active_comment_tasks (save w') = unposted post m (attempted w)
     | Some e =>
         TaskSave.active_comment_tasks (save w') = attempted w
         ∧ length (writes (new_events w w')) = length (comment_post_queue w)
         ∧ last (new_events w w') = Some (EvSleep 60)
         ∧ if is_Exception e
           then fst (comment_poster_cycle post w) = Ok tt
                ∧ In (EvPrint (MsgUnknownPostingException e)) (new_events w w')
           else fst (comment_poster_cycle post w) = Exc e
                ∧ ∀ msg, ¬ In (EvPrint msg) (new_events w w')
     end)
  ∧ (∀ (posts : list post_call) (w : World) (t : CommentTask.t),
       In t (TaskSave.active_comment_tasks (save w)) →
       Forall (fun post : post_call => ∀ i m, post i t m ≠ Ok true) posts →
       In t (TaskSave.active_comment_tasks
               (save (snd (comment_poster_cycles posts w))))).
Proof.
  split; [|apply comment_poster_cycles_keep].
  intros post w. cbn zeta.
  destruct (comment_poster_cycle_shape post w)
    as (w1 & docs & _ & _ & Hsave & _ & _ & _ & _ & _ & _ & Hcycle).
  destruct (comment_poster_cycle_events post w) as (docs' & Hlen & Hev).
  rewrite Hev. revert Hcycle. unfold cycle_outcome.
  destruct (first_exception post _ 0 (attempted w)) as [e|].
  - intros Hcycle. rewrite !writes_app, writes_map, !length_app, Hlen.
    destruct (is_Exception e); rewrite Hcycle; cbn [fst snd]; cbn;
      rewrite Hsave; cbn.
    + split; [done|]. split; [lia|].
      split; [by rewrite last_cons, last_app|].
      split; [done|]. right. apply in_app_iff. right. cbn. tauto.
    + split; [done|]. split; [lia|].
      split; [by rewrite last_cons, last_app|].
      split; [done|]. intros msg [Hin|Hin]; [discriminate Hin|].
      apply in_app_iff in Hin as [Hin|Hin].
      * apply in_map_iff in Hin as (d & Hd & _). discriminate Hd.
      * cbn in Hin. destruct Hin as [Hin|[Hin|[]]]; discriminate Hin.
  - intros Hcycle. destruct (attempted w) as [|t rest] eqn:Hatt; rewrite Hcycle; cbn.
    + split; [done|]. by rewrite Hsave.
    + split; [done|]. reflexivity.
Qed.

Lemma comment_task_removed_on_success_without_exception_witness :
  TaskSave.active_comment_tasks
    (save (snd (comment_poster_cycle post_first_ok_second_fails world_two_comments)))
  = [comment1]
  ∧ In comment0
       (TaskSave.active_comment_tasks
          (save (snd (comment_poster_cycles
                        [post_never_succeeds; post_never_succeeds; post_never_succeeds]
                        world_two_comments)))).
Proof.
  destruct comment_task_removed_on_success_without_exception as [Hcycle Hkeep].
  split.
  - pose proof (Hcycle post_first_ok_second_fails world_two_comments) as H.
    cbn zeta in H.
    change (first_exception post_first_ok_second_fails
              (TaskSave.session_id_map (save world_two_comments)) 0
              (attempted world_two_comments)) with (@None exn) in H.
    destruct H as [_ ->]. reflexivity.
  - apply (Hkeep [post_never_succeeds; post_never_succeeds; post_never_succeeds]
                 world_two_comments comment0).
    + left. reflexivity.
    + repeat constructor; discriminate.
Defined.

(** The first attempt reports success and the second raises: after the
    cycle the first task is still in [active_comment_tasks]. *)
Lemma success_not_removed_when_another_attempt_raises :
  reports_success post_first_ok_second_raises ∅ 0 comment0 = true
  ∧ fst (comment_poster_cycle post_first_ok_second_raises world_two_comments) = Ok tt
  ∧ TaskSave.active_comment_tasks
      (save (snd (comment_poster_cycle post_first_ok_second_raises world_two_comments)))
    = [comment0; comment1]
  ∧ ¬ removed_exactly_on_success post_first_ok_second_raises world_two_comments.
Proof.
  assert (Hact : TaskSave.active_comment_tasks
      (save (snd (comment_poster_cycle post_first_ok_second_raises world_two_comments)))
    = [comment0; comment1]).
  { destruct (comment_poster_cycle_active post_first_ok_second_raises world_two_comments)
      as (_ & ->). reflexivity. }
  split; [reflexivity|]. split; [reflexivity|].
  split; [exact Hact|].
  unfold removed_exactly_on_success. rewrite Hact. discriminate.
Qed.

Lemma unposted_none_succeeds (post : post_call) (m : gmap string string)
    (tasks : list CommentTask.t) :
  (∀ i t, reports_success post m i t = false) →
  unposted post m tasks = tasks.
Proof.
  intros Hfail. unfold unposted, enumerate.
  generalize 0%nat. induction tasks as [|t rest IH]; intros idx; [done|].
  cbn. rewrite Hfail. cbn. by rewrite IH.
Qed.

(** What the code does in a cycle where nothing is queued, the active list
    is not empty and every attempt reports failure: the removal phase runs
    all the same, takes the lock and overwrites the save file. *)
Lemma cycle_without_success_rewrites_file (post : post_call) (w : World) :
  comment_post_queue w = [] →
  TaskSave.active_comment_tasks (save w) ≠ [] →
  (∀ i t m, post i t m = Ok false) →
  comment_poster_cycle post w
  = (Ok tt,
     set_trace (trace w ++ [EvAcquire; EvRelease;
                            EvAcquire; EvWrite (SaveDoc.to_dict (save w)); EvRelease;
                            EvSleep 60])
       (set_save_file (Some (SaveDoc.to_dict (save w))) w)).
Proof.
  intros Hq Hne Hfail.
  destruct (drain_phase w) as (w1 & Hphase & _ & _ & Hw1).
  specialize (Hw1 Hq). subst w1.
  unfold comment_poster_cycle. rewrite (bind_ok _ _ _ _ _ Hphase).
  unfold finally, try_except.
  rewrite post_and_remove_no_raise; cbn [save set_trace].
  - rewrite unposted_none_succeeds
      by (intros i t; unfold reports_success; by rewrite Hfail).
    unfold_monad. cbn. rewrite <- !app_assoc. cbn.
    by destruct w as [? ? ? ? [? ?] ? ? ?].
  - exact Hne.
  - unfold any_raises. apply not_true_is_false. intros Hex.
    apply existsb_exists in Hex as ([i t] & _ & Hr).
    unfold attempt_raises in Hr. cbn in Hr. by rewrite Hfail in Hr.
Qed.

(** C10 (the code at the failing input). Two tasks are active, nothing is
    queued and no attempt reports success: the cycle leaves
    [active_comment_tasks] as it was, yet its removal phase takes the lock
    and overwrites the save file. *)
Theorem removal_phase_persists_without_success :
  successes post_never_succeeds ∅ 0 [comment0; comment1] = []
  ∧ save (snd (comment_poster_cycle post_never_succeeds world_two_comments))
    = save world_two_comments
  ∧ trace (snd (comment_poster_cycle post_never_succeeds world_two_comments))
    = [EvAcquire; EvRelease;
       EvAcquire; EvWrite (SaveDoc.to_dict save_two_comments); EvRelease;
       EvSleep 60]
  ∧ writes (trace (snd (comment_poster_cycle post_never_succeeds world_two_comments)))
    = [SaveDoc.to_dict save_two_comments].
Proof.
  rewrite (cycle_without_success_rewrites_file post_never_succeeds world_two_comments);
    [|reflexivity|discriminate|reflexivity].
  repeat split; reflexivity.
Qed.

(** ** Restarts of a room *)

(** C1 (the code at the failing input). Room 100 ended its session at
    12:00:00 and starts again at 12:02:00. The code computes
    [(end_time - now).seconds = 86280], so its test [86280 / 60 < 5] fails:
    the new id is registered with a new Session object, not with the
    existing one, and the stored workflow handle is not cancelled. *)
Theorem restart_two_minutes_after_end_not_merged :
  0 < total_microseconds (datetime_sub two_past_noon noon) < 300 * 1000000
  ∧ Timedelta.seconds (datetime_sub noon two_past_noon) = 86280
  ∧ handle_update (steady two_past_noon) restart world_ended
    = (Ok tt,
       mkWorld [("s1", 0%nat); ("s2", 1%nat)]
               [ended_session; Session.of_update restart]
               [] [] TaskSave.empty None 8%nat []).
Proof.
  split; [by vm_compute|]. split; reflexivity.
Qed.

(** C8 (the code at the failing input). Room 100 has a registered session
    that is still recording ([end_time] unset) and a [SessionStarted] event
    for room 100 arrives: the scan raises [TypeError] and nothing is
    registered for the new id. *)
Theorem session_started_raises_while_recording :
  Session.end_time recording_session = None
  ∧ handle_update (steady two_past_noon) restart world_recording
    = (Exc TypeError, world_recording).
Proof.
  split; reflexivity.
Qed.

(** ** The upload workflow *)

Section WorkflowProperties.

Variable output_path : Session.t → string → string.
Variable substitute : string → list (string * string) → Result string.
Variable config : RecorderConfig.t.

Lemma reaches_early_cut_inv (session : ref) (w : World) :
  reaches_early_cut output_path substitute config session w →
  ∃ s room_config uploader title description,
    heap w !! session = Some s
    ∧ upload_video output_path substitute config session w
      = (Ok (Awaiting (AwGenEarlyVideo session)
               (after_early output_path session room_config uploader title description)),
         w).
Proof.
  unfold reaches_early_cut, upload_video, deref, bind, lift, ret.
  destruct (heap w !! session) as [s|]; [|cbn; done].
  destruct (find_room_config config (Session.room_id s)) as [rc|]; [|cbn; done].
  destruct (RoomConfig.uploader rc) as [uid|]; [|cbn; done].
  destruct (accounts_getitem config uid) as [acc|]; [|cbn; done].
  destruct (videos_getitem0 s) as [v0|]; [|cbn; done].
  destruct (substitute (RoomConfig.title rc) _) as [title|]; [|cbn; done].
  destruct (substitute (RoomConfig.description rc) _) as [description|]; [|cbn; done].
  intros _. by exists s, rc, acc, title, description.
Qed.

(** Step 4: the early cut and its upload task. *)
Lemma after_early_spec (session : ref) (room_config : RoomConfig.t)
    (uploader : UploaderAccount.t) (title description : string)
    (answer : option string) (w : World) (s : Session.t) :
  heap w !! session = Some s →
  ∃ w1 early_upload_task,
    after_early output_path session room_config uploader title description answer w
    = (Ok (Awaiting (AwSleep (WAIT_SESSION_MINUTES * 60))
             (after_sleep output_path session room_config uploader title description
                          early_upload_task)),
       w1)
    ∧ heap w1 !! session = Some (Session.set_early_video_path answer s)
    ∧ comment_post_queue w1 = comment_post_queue w
    ∧ match answer with
      | None =>
          early_upload_task = None
          ∧ trace w1 = trace w
          ∧ video_upload_queue w1 = video_upload_queue w
      | Some p =>
          ∃ t, early_upload_task = Some t
               ∧ UploadTask.danmaku t = false
               ∧ UploadTask.video_path t = Some p
               ∧ trace w1 = trace w ++ [EvPutUpload t]
               ∧ video_upload_queue w1 = video_upload_queue w ++ [t]
      end.
Proof.
  intros Hs. unfold after_early, gen_early_video, deref. unfold_monad. cbn.
  rewrite list_lookup_alter_eq, Hs. cbn.
  destruct answer as [p|]; cbn.
  - eexists _, _. split; [reflexivity|]. cbn.
    rewrite list_lookup_alter_eq, Hs. cbn.
    split; [done|]. split; [done|].
    eexists. split; [reflexivity|]. done.
  - eexists _, _. split; [reflexivity|]. cbn.
    rewrite list_lookup_alter_eq, Hs. done.
Qed.

(** Step 6: the comment task of the early upload, if there is one. *)
Lemma after_sleep_spec (session : ref) (room_config : RoomConfig.t)
    (uploader : UploaderAccount.t) (title description : string)
    (early_upload_task : option UploadTask.t) (answer : option string) (w : World) :
  ∃ w2,
    after_sleep output_path session room_config uploader title description
                early_upload_task answer w
    = (Ok (Awaiting (AwGenDanmakuVideo session)
             (after_danmaku output_path session room_config uploader title description
                            early_upload_task)),
       w2)
    ∧ heap w2 = heap w
    ∧ video_upload_queue w2 = video_upload_queue w
    ∧ match early_upload_task with
      | Some t =>
          trace w2 = trace w ++ [EvPutComment (CommentTask.from_upload_task t)]
          ∧ comment_post_queue w2
            = comment_post_queue w ++ [CommentTask.from_upload_task t]
      | None => w2 = w
      end.
Proof.
  unfold after_sleep. unfold_monad.
  destruct early_upload_task as [t|]; cbn; eexists; (split; [reflexivity|]); done.
Qed.

(** Steps 7 and 8: the danmaku upload task is built from
    [session.early_video_path] and always enqueued; its comment task is
    enqueued when there was no early upload task. *)
Lemma after_danmaku_spec (session : ref) (room_config : RoomConfig.t)
    (uploader : UploaderAccount.t) (title description : string)
    (early_upload_task : option UploadTask.t) (answer : option string)
    (w : World) (s : Session.t) :
  heap w !! session = Some s →
  ∃ w3 danmaku_upload_task,
    after_danmaku output_path session room_config uploader title description
                  early_upload_task answer w
    = (Ok Finished, w3)
    ∧ UploadTask.danmaku danmaku_upload_task = true
    ∧ UploadTask.video_path danmaku_upload_task = Session.early_video_path s
    ∧ UploadTask.session_id danmaku_upload_task = Session.session_id s
    ∧ video_upload_queue w3 = video_upload_queue w ++ [danmaku_upload_task]
    ∧ match early_upload_task with
      | Some _ =>
          trace w3 = trace w ++ [EvPutUpload danmaku_upload_task]
          ∧ comment_post_queue w3 = comment_post_queue w
      | None =>
          trace w3 = trace w ++
            [EvPutUpload danmaku_upload_task;
             EvPutComment (CommentTask.from_upload_task danmaku_upload_task)]
          ∧ comment_post_queue w3
            = comment_post_queue w ++ [CommentTask.from_upload_task danmaku_upload_task]
      end.
Proof.
  intros Hs. unfold after_danmaku, gen_danmaku_video, deref. unfold_monad.
  rewrite Hs.
  destruct early_upload_task as [t|]; cbn;
    eexists _, (UploadTask.mk _ _ _ _ _ _ _ _ _ _ _ _ _);
    (split; [reflexivity|]); cbn; rewrite <- ?app_assoc; done.
Qed.

(** C6 (as amended). In every run of the workflow that reaches the
    generation of the early cut:
    - when no early video is produced, the run resumed to its end enqueues
      one upload task, the danmaku one, and then one comment task, derived from
      it; a run that is cancelled while it sleeps or while it waits for the
      danmaku video has enqueued nothing;
    - when an early video is produced, the complete run enqueues the early
      upload task, its comment task and then the danmaku upload task, and no
      comment task after the danmaku upload task. *)
Theorem comment_task_follows_danmaku_task_without_early_video
    (session : ref) (w : World) (a_sleep a_danmaku : option string) :
  reaches_early_cut output_path substitute config session w →
  (∃ w' dt,
     run_upload_video output_path substitute config session
                      [None; a_sleep; a_danmaku] w = (Ok Finished, w')
     ∧ UploadTask.danmaku dt = true
     ∧ new_events w w'
       = [EvPutUpload dt; EvPutComment (CommentTask.from_upload_task dt)]
     ∧ video_upload_queue w' = video_upload_queue w ++ [dt]
     ∧ comment_post_queue w'
       = comment_post_queue w ++ [CommentTask.from_upload_task dt])
  ∧ new_events w (snd (run_upload_video output_path substitute config session
                                        [None] w)) = []
  ∧ new_events w (snd (run_upload_video output_path substitute config session
                                        [None; a_sleep] w)) = []
  ∧ (∀ p, ∃ w' et dt,
       run_upload_video output_path substitute config session
                        [Some p; a_sleep; a_danmaku] w = (Ok Finished, w')
       ∧ UploadTask.danmaku et = false
       ∧ UploadTask.danmaku dt = true
       ∧ new_events w w'
         = [EvPutUpload et; EvPutComment (CommentTask.from_upload_task et);
            EvPutUpload dt]
       ∧ comment_post_queue w'
         = comment_post_queue w ++ [CommentTask.from_upload_task et]).
Proof.
  intros Hreach.
  destruct (reaches_early_cut_inv session w Hreach)
    as (s & rc & acc & title & description & Hs & Hup).
  unfold run_upload_video. rewrite !(bind_ok _ _ _ _ _ Hup).
  split; [|split; [|split]].
  - cbn [resume_with].
    destruct (after_early_spec session rc acc title description None w s Hs)
      as (w1 & eo & Hae & Hh1 & Hcq1 & -> & Htr1 & Huq1).
    rewrite (bind_ok _ _ _ _ _ Hae).
    destruct (after_sleep_spec session rc acc title description None a_sleep w1)
      as (w2 & Has & _ & _ & ->).
    rewrite (bind_ok _ _ _ _ _ Has).
    destruct (after_danmaku_spec session rc acc title description None a_danmaku
                                 w1 _ Hh1)
      as (w3 & dt & Had & Hd & _ & _ & Huq3 & Htr3 & Hcq3).
    rewrite (bind_ok _ _ _ _ _ Had).
    exists w3, dt. split; [reflexivity|]. split; [exact Hd|].
    split; [apply new_events_app; by rewrite Htr3, Htr1|].
    split; [by rewrite Huq3, Huq1|by rewrite Hcq3, Hcq1].
  - cbn [resume_with].
    destruct (after_early_spec session rc acc title description None w s Hs)
      as (w1 & eo & Hae & _ & _ & -> & Htr1 & _).
    rewrite (bind_ok _ _ _ _ _ Hae). cbn. by apply new_events_same.
  - cbn [resume_with].
    destruct (after_early_spec session rc acc title description None w s Hs)
      as (w1 & eo & Hae & _ & _ & -> & Htr1 & _).
    rewrite (bind_ok _ _ _ _ _ Hae).
    destruct (after_sleep_spec session rc acc title description None a_sleep w1)
      as (w2 & Has & _ & _ & ->).
    rewrite (bind_ok _ _ _ _ _ Has). cbn. by apply new_events_same.
  - intros p. rewrite (bind_ok _ _ _ _ _ Hup). cbn [resume_with].
    destruct (after_early_spec session rc acc title description (Some p) w s Hs)
      as (w1 & eo & Hae & Hh1 & Hcq1 & et & -> & He & _ & Htr1 & Huq1).
    rewrite (bind_ok _ _ _ _ _ Hae).
    destruct (after_sleep_spec session rc acc title description (Some et) a_sleep w1)
      as (w2 & Has & Hh2 & _ & Htr2 & Hcq2).
    rewrite (bind_ok _ _ _ _ _ Has).
    rewrite <- Hh2 in Hh1.
    destruct (after_danmaku_spec session rc acc title description (Some et) a_danmaku
                                 w2 _ Hh1)
      as (w3 & dt & Had & Hd & _ & _ & _ & Htr3 & Hcq3).
    rewrite (bind_ok _ _ _ _ _ Had).
    exists w3, et, dt. split; [reflexivity|]. split; [exact He|].
    split; [exact Hd|]. split.
    + apply new_events_app. rewrite Htr3, Htr2, Htr1. by rewrite <- !app_assoc.
    + by rewrite Hcq3, Hcq2, Hcq1.
Qed.

(** What the code does at step 7, in every run that gets there: the video
    path of the danmaku upload task is [session.early_video_path]. *)
Lemma danmaku_task_carries_early_video_path
    (session : ref) (w : World) (a_early a_sleep a_danmaku : option string) :
  reaches_early_cut output_path substitute config session w →
  ∃ w' dt,
    run_upload_video output_path substitute config session
                     [a_early; a_sleep; a_danmaku] w = (Ok Finished, w')
    ∧ last (upload_puts (new_events w w')) = Some dt
    ∧ UploadTask.danmaku dt = true
    ∧ UploadTask.video_path dt = a_early.
Proof.
  intros Hreach.
  destruct (reaches_early_cut_inv session w Hreach)
    as (s & rc & acc & title & description & Hs & Hup).
  unfold run_upload_video. rewrite !(bind_ok _ _ _ _ _ Hup). cbn [resume_with].
  destruct (after_early_spec session rc acc title description a_early w s Hs)
    as (w1 & eo & Hae & Hh1 & _ & Hcase).
  rewrite (bind_ok _ _ _ _ _ Hae).
  destruct (after_sleep_spec session rc acc title description eo a_sleep w1)
    as (w2 & Has & Hh2 & _ & Hcase2).
  rewrite (bind_ok _ _ _ _ _ Has). rewrite <- Hh2 in Hh1.
  destruct (after_danmaku_spec session rc acc title description eo a_danmaku w2 _ Hh1)
    as (w3 & dt & Had & Hd & Hpath & _ & _ & Hcase3).
  rewrite (bind_ok _ _ _ _ _ Had).
  exists w3, dt. split; [reflexivity|].
  split; [|split; [exact Hd|by destruct a_early]].
  destruct a_early as [p|].
  - destruct Hcase as (et & -> & _ & _ & Htr1 & _).
    destruct Hcase2 as [Htr2 _]. destruct Hcase3 as [Htr3 _].
    rewrite (new_events_app w w3
               [EvPutUpload et; EvPutComment (CommentTask.from_upload_task et);
                EvPutUpload dt]); [done|].
    rewrite Htr3, Htr2, Htr1. by rewrite <- !app_assoc.
  - destruct Hcase as (-> & Htr1 & _). subst w2. destruct Hcase3 as [Htr3 _].
    rewrite (new_events_app w w3
               [EvPutUpload dt; EvPutComment (CommentTask.from_upload_task dt)]);
      [done|].
    by rewrite Htr3, Htr1.
Qed.

End WorkflowProperties.

Lemma comment_task_follows_danmaku_task_without_early_video_witness :
  ∃ w' dt,
    run_upload_video sample_output_path sample_substitute sample_config 0%nat
                     [None; None; Some "danmaku.mp4"] world_ended = (Ok Finished, w')
    ∧ new_events world_ended w'
      = [EvPutUpload dt; EvPutComment (CommentTask.from_upload_task dt)].
Proof.
  destruct (comment_task_follows_danmaku_task_without_early_video
              sample_output_path sample_substitute sample_config 0%nat world_ended
              None (Some "danmaku.mp4"))
    as [(w' & dt & Hrun & _ & Hev & _) _].
  - vm_compute. exact I.
  - exists w', dt. split; assumption.
Defined.

(** A run in which no early video is produced and which is cancelled
    while it sleeps has enqueued no comment task, and no upload task. *)
Lemma cancelled_run_enqueues_no_comment_task :
  reaches_early_cut sample_output_path sample_substitute sample_config 0%nat world_ended
  ∧ (∃ resume,
       fst (run_upload_video sample_output_path sample_substitute sample_config 0%nat
                             [None] world_ended)
       = Ok (Awaiting (AwSleep (WAIT_SESSION_MINUTES * 60)) resume))
  ∧ comment_puts
      (new_events world_ended
         (snd (run_upload_video sample_output_path sample_substitute sample_config
                                0%nat [None] world_ended))) = []
  ∧ length (comment_puts
              (new_events world_ended
                 (snd (run_upload_video sample_output_path sample_substitute
                                        sample_config 0%nat [None] world_ended))))
    ≠ 1%nat
  ∧ comment_post_queue
      (snd (run_upload_video sample_output_path sample_substitute sample_config
                             0%nat [None] world_ended)) = []
  ∧ video_upload_queue
      (snd (run_upload_video sample_output_path sample_substitute sample_config
                             0%nat [None] world_ended)) = [].
Proof.
  split; [vm_compute; exact I|].
  split; [eexists; vm_compute; reflexivity|].
  split; [reflexivity|]. split; [discriminate|]. split; reflexivity.
Qed.

(** C5 (the code at the failing input). The session of room 100 ends with
    one recorded file; the early cut is produced at early.flv and the
    danmaku-burned video at danmaku.mp4. The run enqueues two upload tasks;
    the second has [danmaku = true] and its video path is early.flv, the
    path of the early cut, not danmaku.mp4. When no early cut is produced,
    the video path of the danmaku task is [None]. *)
Theorem danmaku_task_uploads_early_video_path :
  (∃ w' et dt,
     run_upload_video sample_output_path sample_substitute sample_config 0%nat
                      [Some "early.flv"; None; Some "danmaku.mp4"] world_ended
     = (Ok Finished, w')
     ∧ video_upload_queue w' = [et; dt]
     ∧ UploadTask.danmaku et = false
     ∧ UploadTask.video_path et = Some "early.flv"
     ∧ UploadTask.danmaku dt = true
     ∧ UploadTask.video_path dt = Some "early.flv"
     ∧ UploadTask.video_path dt ≠ Some "danmaku.mp4")
  ∧ (∃ w' dt,
       run_upload_video sample_output_path sample_substitute sample_config 0%nat
                        [None; None; Some "danmaku.mp4"] world_ended
       = (Ok Finished, w')
       ∧ video_upload_queue w' = [dt]
       ∧ UploadTask.danmaku dt = true
       ∧ UploadTask.video_path dt = None).
Proof.
  split.
  - eexists _, (UploadTask.mk _ _ _ _ _ _ _ _ _ _ _ _ _),
                (UploadTask.mk _ _ _ _ _ _ _ _ _ _ _ _ _).
    split; [vm_compute; reflexivity|]. cbn.
    repeat split; try reflexivity. discriminate.
  - eexists _, (UploadTask.mk _ _ _ _ _ _ _ _ _ _ _ _ _).
    split; [vm_compute; reflexivity|]. cbn.
    repeat split; reflexivity.
Qed.

(** * Further properties *)

(** ** The registry *)

Lemma dict_get_set_eq (k : string) (v : ref) (d : list (string * ref)) :
  dict_get k (dict_set k v d) = Some v.
Proof.
  induction d as [|[k' v'] d IH]; cbn.
  - by rewrite String.eqb_refl.
  - destruct (String.eqb k' k) eqn:E; cbn.
    + by rewrite String.eqb_refl.
    + by rewrite E.
Qed.

Lemma dict_get_set_ne (k k0 : string) (v : ref) (d : list (string * ref)) :
  k0 ≠ k → dict_get k0 (dict_set k v d) = dict_get k0 d.
Proof.
  intros Hne. induction d as [|[k' v'] d IH]; cbn.
  - destruct (String.eqb k k0) eqn:E; [|done].
    apply String.eqb_eq in E. congruence.
  - destruct (String.eqb k' k) eqn:E; cbn.
    + apply String.eqb_eq in E. subst k'.
      destruct (String.eqb k k0) eqn:E0; [|done].
      apply String.eqb_eq in E0. congruence.
    + by rewrite IH.
Qed.

(** ** [handle_update], branch by branch *)

Lemma handle_update_registered (now : nat → Datetime.t) (u : Update.t) (w : World) (r : ref) :
  Update.EventType u ≠ "SessionStarted" →
  dict_get (Update.SessionId u) (sessions w) = Some r →
  let processed := alter (Session.process_update u) r (heap w) in
  handle_update now u w
  = (Ok tt,
     if String.eqb (Update.EventType u) "FileClosed" then
       set_heap (alter (Session.add_video (Video.of_update u)) r processed) w
     else if String.eqb (Update.EventType u) "SessionEnded" then
       set_heap (alter (Session.set_upload_task (Some (next_future w))) r processed)
         (set_trace (trace w ++ [EvLaunch (next_future w) r])
            (set_next_future (S (next_future w)) w))
     else set_heap processed w).
Proof.
  intros Htype Hget. unfold handle_update.
  destruct (String.eqb (Update.EventType u) "SessionStarted") eqn:E.
  { apply String.eqb_eq in E. contradiction. }
  unfold gets at 1. unfold bind at 1. rewrite Hget.
  destruct (String.eqb (Update.EventType u) "FileClosed");
    [|destruct (String.eqb (Update.EventType u) "SessionEnded")];
    unfold_monad; cbn; reflexivity.
Qed.

(** ** The [SessionStarted] loop and the clock *)

(** The loop over a prefix of sessions on which the test is false. *)
Lemma continue_session_skip (clock : nat → Datetime.t) (room_id : Z)
    (session_id : string) (pre rest : list ref) (ss : list Session.t)
    (w : World) (k : nat) :
  derefs w pre ss →
  tests_false clock k room_id ss →
  continue_session clock k room_id session_id (pre ++ rest) w
  = continue_session clock (k + readings room_id ss) room_id session_id rest w.
Proof.
  intros Hd. revert k. induction Hd as [|r s pre ss Hs Hd IH]; intros k Htests.
  - cbn. by rewrite Nat.add_0_r.
  - rewrite <- app_comm_cons, (continue_session_cons _ _ _ _ _ _ _ _ Hs).
    cbn [tests_false] in Htests. unfold readings. cbn [List.filter].
    destruct (Session.room_id s =? room_id).
    + destruct Htests as [-> Htests]. rewrite (IH (S k) Htests).
      cbn [length]. unfold readings. by rewrite Nat.add_succ_comm.
    + apply IH, Htests.
Qed.

Lemma continuation_test_true_room (now : Datetime.t) (room_id : Z) (s : Session.t) :
  continuation_test now room_id s = Some true →
  (Session.room_id s =? room_id) = true.
Proof. unfold continuation_test. by destruct (Session.room_id s =? room_id). Qed.

(** The merge into the first session on which the test is true. *)
Lemma handle_update_alias_first_passing (clock : nat → Datetime.t) (u : Update.t)
    (w : World) (pre post : list ref) (ss : list Session.t) (r : ref)
    (s : Session.t) :
  Update.EventType u = "SessionStarted" →
  dict_values (sessions w) = pre ++ r :: post →
  derefs w pre ss →
  tests_false clock 0 (Update.RoomId u) ss →
  heap w !! r = Some s →
  continuation_test (clock (readings (Update.RoomId u) ss)) (Update.RoomId u) s
  = Some true →
  handle_update clock u w = (Ok tt, aliased (Update.SessionId u) r s w).
Proof.
  intros Htype Hvalues Hpre Htests Hs Htest.
  rewrite (handle_update_started clock u w Htype), Hvalues.
  rewrite (continue_session_skip _ _ _ pre (r :: post) ss w 0%nat Hpre Htests).
  rewrite (continue_session_cons _ _ _ _ _ _ _ _ Hs). cbn [Nat.add].
  by rewrite (continuation_test_true_room _ _ _ Htest), Htest.
Qed.

(** X3. A [SessionStarted] event for which the test of the loop is false
    on every registered session, each session of the event's room being
    tested at its own reading of the clock (in particular an event of a room
    that has no registered session), creates one new Session object from the
    event, registers it under the event's session id, and cancels nothing. *)
Theorem session_started_registers_new_session (clock : nat → Datetime.t)
    (u : Update.t) (w : World) (ss : list Session.t) :
  Update.EventType u = "SessionStarted" →
  derefs w (dict_values (sessions w)) ss →
  tests_false clock 0 (Update.RoomId u) ss →
  handle_update clock u w = (Ok tt, registered_new u w)
  ∧ dict_get (Update.SessionId u) (sessions (registered_new u w))
    = Some (length (heap w))
  ∧ heap (registered_new u w) !! length (heap w) = Some (Session.of_update u)
  ∧ (∀ r s, heap w !! r = Some s → heap (registered_new u w) !! r = Some s)
  ∧ trace (registered_new u w) = trace w.
Proof.
  intros Htype Hd Htests. rewrite (handle_update_started clock u w Htype).
  pose proof (continue_session_skip clock (Update.RoomId u) (Update.SessionId u)
                (dict_values (sessions w)) [] ss w 0%nat Hd Htests) as Hskip.
  rewrite app_nil_r in Hskip. rewrite Hskip. cbn [continue_session ret].
  split; [reflexivity|]. cbn.
  split; [apply dict_get_set_eq|].
  split; [by rewrite lookup_app_r, Nat.sub_diag|].
  split; [|reflexivity].
  intros r s Hs. by apply lookup_app_l_Some.
Qed.

Lemma session_started_registers_new_session_witness :
  handle_update (steady noon) restart world_same_room_twice
  = (Ok tt, registered_new restart world_same_room_twice).
Proof.
  destruct (session_started_registers_new_session (steady noon) restart
              world_same_room_twice [session_ended_at_eleven; session_ending_soon]
              eq_refl) as (H & _).
  - repeat constructor.
  - vm_compute. split; [reflexivity|]. split; [reflexivity|exact I].
  - exact H.
Defined.

(** X4. A [SessionStarted] event is merged into the first registered
    session, in insertion order of the registry, on which the test of the loop
    is true, the test being false on every session before it and every
    session of the event's room being tested at its own reading of the clock:
    the event's id is registered to that same object, no Session object is
    created, the object's workflow handle is cancelled if it has one, and the
    sessions after it are not examined. *)
Theorem session_started_aliases_first_passing (clock : nat → Datetime.t)
    (u : Update.t) (w : World) (pre post : list ref) (ss : list Session.t)
    (r : ref) (s : Session.t) :
  Update.EventType u = "SessionStarted" →
  dict_values (sessions w) = pre ++ r :: post →
  derefs w pre ss →
  tests_false clock 0 (Update.RoomId u) ss →
  heap w !! r = Some s →
  continuation_test (clock (readings (Update.RoomId u) ss)) (Update.RoomId u) s
  = Some true →
  let w' := aliased (Update.SessionId u) r s w in
  handle_update clock u w = (Ok tt, w')
  ∧ dict_get (Update.SessionId u) (sessions w') = Some r
  ∧ heap w' = heap w
  ∧ trace w' = trace w ++ cancel_events s.
Proof.
  intros Htype Hvalues Hpre Htests Hs Htest. cbn zeta.
  split; [by eapply handle_update_alias_first_passing|]. cbn.
  split; [apply dict_get_set_eq|done].
Qed.

Lemma session_started_aliases_first_passing_witness :
  handle_update two_readings restart world_same_room_twice
  = (Ok tt, aliased "s2" 1%nat session_ending_soon world_same_room_twice)
  ∧ trace (aliased "s2" 1%nat session_ending_soon world_same_room_twice)
    = [EvCancel 4%nat].
Proof.
  destruct (session_started_aliases_first_passing two_readings restart
              world_same_room_twice [0%nat] [] [session_ended_at_eleven] 1%nat
              session_ending_soon eq_refl eq_refl) as (H1 & _ & _ & H2).
  - repeat constructor.
  - vm_compute. split; [reflexivity|exact I].
  - reflexivity.
  - vm_compute. reflexivity.
  - split; [exact H1|exact H2].
Defined.

(** X5. A registered session of the event's room whose [end_time] is
    unset makes a [SessionStarted] event raise [TypeError], leaving the world
    unchanged, when the test is false on every session registered before it,
    each session of the event's room being tested at its own reading of the
    clock (sessions registered after it are not examined). *)
Theorem session_started_raises_at_first_unset (clock : nat → Datetime.t)
    (u : Update.t) (w : World) (pre post : list ref) (ss : list Session.t)
    (r : ref) (s : Session.t) :
  Update.EventType u = "SessionStarted" →
  dict_values (sessions w) = pre ++ r :: post →
  derefs w pre ss →
  tests_false clock 0 (Update.RoomId u) ss →
  heap w !! r = Some s →
  Session.room_id s = Update.RoomId u →
  Session.end_time s = None →
  handle_update clock u w = (Exc TypeError, w).
Proof.
  intros Htype Hvalues Hpre Htests Hs Hroom Hend.
  rewrite (handle_update_started clock u w Htype), Hvalues.
  rewrite (continue_session_skip _ _ _ pre (r :: post) ss w 0%nat Hpre Htests).
  rewrite (continue_session_cons _ _ _ _ _ _ _ _ Hs).
  unfold continuation_test. by rewrite Hroom, Z.eqb_refl, Hend.
Qed.

Lemma session_started_raises_at_first_unset_witness :
  handle_update two_readings restart world_ended_and_recording
  = (Exc TypeError, world_ended_and_recording).
Proof.
  apply (session_started_raises_at_first_unset two_readings restart
           world_ended_and_recording [0%nat] [] [session_ended_at_eleven] 1%nat
           (Session.mk "s1" 100 "name" "title" (Datetime.mk 2021 3 1 11 30 0 0)
                       None [] None None));
    try reflexivity.
  - repeat constructor.
  - vm_compute. split; [reflexivity|exact I].
Defined.

(** ** The window of the continuation test *)

(** X6. The test of the [SessionStarted] loop is true on a session exactly
    when the session is of the event's room, its [end_time] is set, and
    [now - end_time] lies less than five minutes below a whole number of days
    (zero, positive or negative): the seconds field of the normalised
    difference [end_time - now] ignores the days. *)
Theorem continuation_test_true_iff (now : Datetime.t) (room_id : Z) (s : Session.t) :
  continuation_test now room_id s = Some true
  ↔ Session.room_id s = room_id
    ∧ ∃ e, Session.end_time s = Some e
           ∧ ∃ k : Z, k * DAY_US - WINDOW_US
                      < total_microseconds (datetime_sub now e) <= k * DAY_US.
Proof.
  unfold continuation_test, DAY_US, WINDOW_US, CONTINUE_SESSION_MINUTES.
  destruct (Z.eqb_spec (Session.room_id s) room_id) as [Hroom|Hroom];
    [|split; [done|by intros [? _]]].
  destruct (Session.end_time s) as [e|]; cbn [py_sub];
    [|split; [done|by intros (_ & e & He & _)]].
  pose proof (continuation_test_spec (Timedelta.seconds (datetime_sub e now))) as Hq.
  unfold CONTINUE_SESSION_MINUTES in Hq. rewrite Hq. clear Hq.
  pose proof (sub_total_antisym now e) as Htotal.
  assert (Hb : 0 <= Timedelta.seconds (datetime_sub e now) < 86400
               ∧ 0 <= Timedelta.microseconds (datetime_sub e now) < 1000000)
    by (unfold datetime_sub; apply make_bounds).
  set (d := datetime_sub e now) in *. clearbody d. destruct d as [D S U].
  unfold total_microseconds at 2 in Htotal.
  cbn [Timedelta.days Timedelta.seconds Timedelta.microseconds] in Htotal, Hb |- *.
  split.
  - intros [= Hlt]. apply Z.ltb_lt in Hlt. split; [done|].
    exists e. split; [done|]. exists (- D). rewrite Htotal. lia.
  - intros (_ & e' & [= <-] & k & Hk). f_equal. apply Z.ltb_lt.
    rewrite Htotal in Hk. lia.
Qed.

(** ** Events of a continued session *)

Lemma derefs_alter (w : World) (f : Session.t → Session.t) (r : ref)
    (rs : list ref) (ss : list Session.t) (hp : list Session.t) :
  derefs w rs ss →
  r ∉ rs →
  (∀ r', r' ≠ r → hp !! r' = heap w !! r') →
  Forall2 (fun r' s => hp !! r' = Some s) rs ss.
Proof.
  intros Hd. induction Hd as [|r' s rs ss Hs Hd IH]; intros Hnotin Hhp.
  - constructor.
  - apply not_elem_of_cons in Hnotin as [Hne Hnotin]. constructor.
    + rewrite Hhp; [exact Hs|congruence].
    + by apply IH.
Qed.

(** X7. After a [SessionStarted] event has been merged into a registered
    session (the first one, in insertion order of the registry, on which the
    test of the loop is true, wherever it stands in the registry), a
    [FileClosed] event reported under the new id appends its video to that
    same Session object: every id that reached the object still reaches it
    and sees the new segment, and no Session object has been created. *)
Theorem file_closed_after_merge_reaches_shared_session
    (clock1 clock2 : nat → Datetime.t) (u1 u2 : Update.t) (w : World)
    (pre post : list ref) (ss : list Session.t) (r : ref) (s : Session.t) :
  Update.EventType u1 = "SessionStarted" →
  dict_values (sessions w) = pre ++ r :: post →
  derefs w pre ss →
  tests_false clock1 0 (Update.RoomId u1) ss →
  heap w !! r = Some s →
  continuation_test (clock1 (readings (Update.RoomId u1) ss)) (Update.RoomId u1) s
  = Some true →
  Update.EventType u2 = "FileClosed" →
  Update.SessionId u2 = Update.SessionId u1 →
  let w1 := snd (handle_update clock1 u1 w) in
  let w2 := snd (handle_update clock2 u2 w1) in
  fst (handle_update clock1 u1 w) = Ok tt
  ∧ fst (handle_update clock2 u2 w1) = Ok tt
  ∧ (∀ k, dict_get k (sessions w) = Some r → dict_get k (sessions w2) = Some r)
  ∧ dict_get (Update.SessionId u1) (sessions w2) = Some r
  ∧ heap w2 !! r
    = Some (Session.add_video (Video.of_update u2) (Session.process_update u2 s))
  ∧ length (heap w2) = length (heap w).
Proof.
  intros Htype1 Hvalues Hpre Htests Hs Htest Htype2 Hid. cbn zeta.
  rewrite (handle_update_alias_first_passing clock1 u1 w pre post ss r s
             Htype1 Hvalues Hpre Htests Hs Htest).
  cbn [fst snd].
  assert (Htype2' : Update.EventType u2 ≠ "SessionStarted")
    by (rewrite Htype2; discriminate).
  assert (Hget' : dict_get (Update.SessionId u2)
                    (sessions (aliased (Update.SessionId u1) r s w)) = Some r)
    by (rewrite Hid; cbn; apply dict_get_set_eq).
  rewrite (handle_update_registered clock2 u2 _ r Htype2' Hget').
  rewrite Htype2. change (String.eqb "FileClosed" "FileClosed") with true.
  cbn [fst snd]. cbv iota. cbn.
  split; [done|]. split; [done|].
  split.
  { intros k Hk. destruct (decide (k = Update.SessionId u1)) as [->|Hne].
    - apply dict_get_set_eq.
    - by rewrite dict_get_set_ne. }
  split; [apply dict_get_set_eq|].
  split; [|by rewrite !length_alter].
  by rewrite !list_lookup_alter_eq, Hs.
Qed.

Lemma file_closed_after_merge_reaches_shared_session_witness :
  let w1 := snd (handle_update two_readings restart world_same_room_twice) in
  let w2 := snd (handle_update two_readings file_closed_new_id w1) in
  dict_get "s1" (sessions w2) = Some 1%nat
  ∧ dict_get "s2" (sessions w2) = Some 1%nat
  ∧ heap w2 !! 1%nat
    = Some (Session.add_video (Video.of_update file_closed_new_id)
              (Session.process_update file_closed_new_id session_ending_soon)).
Proof.
  destruct (file_closed_after_merge_reaches_shared_session
              two_readings two_readings restart file_closed_new_id
              world_same_room_twice [0%nat] [] [session_ended_at_eleven] 1%nat
              session_ending_soon eq_refl eq_refl)
    as (_ & _ & H1 & H2 & H3 & _).
  - repeat constructor.
  - vm_compute. split; [reflexivity|exact I].
  - reflexivity.
  - vm_compute. reflexivity.
  - reflexivity.
  - reflexivity.
  - cbn zeta. split; [apply H1; reflexivity|]. split; [exact H2|exact H3].
Defined.

(** X8. When a registered session ends and its room then starts again,
    and that session is the first one, in insertion order of the registry, on
    which the test of the loop is true (wherever it stands in the registry),
    the handle that [SessionEnded] stored on the session is the one that
    [SessionStarted] cancels: the workflow launched at the end of the session
    is the workflow cancelled by the restart, and the handle is a fresh
    one. *)
Theorem restart_cancels_workflow_launched_at_end
    (clock1 clock2 : nat → Datetime.t) (u1 u2 : Update.t) (w : World)
    (pre post : list ref) (ss : list Session.t) (r : ref) (s : Session.t) :
  dict_get (Update.SessionId u1) (sessions w) = Some r →
  heap w !! r = Some s →
  Update.EventType u1 = "SessionEnded" →
  Update.EventType u2 = "SessionStarted" →
  dict_values (sessions w) = pre ++ r :: post →
  r ∉ pre →
  derefs w pre ss →
  tests_false clock2 0 (Update.RoomId u2) ss →
  continuation_test (clock2 (readings (Update.RoomId u2) ss)) (Update.RoomId u2)
    (Session.set_upload_task (Some (next_future w)) (Session.process_update u1 s))
  = Some true →
  let w1 := snd (handle_update clock1 u1 w) in
  let w2 := snd (handle_update clock2 u2 w1) in
  fst (handle_update clock1 u1 w) = Ok tt
  ∧ fst (handle_update clock2 u2 w1) = Ok tt
  ∧ trace w2 = trace w ++ [EvLaunch (next_future w) r; EvCancel (next_future w)]
  ∧ next_future w2 = S (next_future w)
  ∧ dict_get (Update.SessionId u2) (sessions w2) = Some r
  ∧ length (heap w2) = length (heap w).
Proof.
  intros Hget Hs Htype1 Htype2 Hvalues Hnotin Hpre Htests Htest. cbn zeta.
  assert (Htype1' : Update.EventType u1 ≠ "SessionStarted")
    by (rewrite Htype1; discriminate).
  rewrite (handle_update_registered clock1 u1 w r Htype1' Hget).
  rewrite Htype1.
  change (String.eqb "SessionEnded" "FileClosed") with false.
  change (String.eqb "SessionEnded" "SessionEnded") with true.
  cbn [fst snd]. cbv iota.
  match goal with
  | |- _ ∧ fst (handle_update _ _ ?w1) = _ ∧ _ =>
      pose proof (handle_update_alias_first_passing clock2 u2 w1 pre post ss r
                  (Session.set_upload_task (Some (next_future w))
                                           (Session.process_update u1 s))
                  Htype2) as H2
  end.
  rewrite H2; clear H2.
  - cbn. split; [done|]. split; [done|].
    split; [by rewrite <- app_assoc|].
    split; [reflexivity|]. split; [apply dict_get_set_eq|].
    by rewrite !length_alter.
  - exact Hvalues.
  - cbn. eapply (derefs_alter w (fun x => x)); [exact Hpre|exact Hnotin|].
    intros r' Hne. cbn. by rewrite !list_lookup_alter_ne.
  - exact Htests.
  - cbn. by rewrite !list_lookup_alter_eq, Hs.
  - exact Htest.
Qed.

Lemma restart_cancels_workflow_launched_at_end_witness :
  let w1 := snd (handle_update (steady noon) session_ended_s1
                   world_ended_and_recording) in
  let w2 := snd (handle_update (steady next_day_1158) restart_next_day w1) in
  trace w2 = [EvLaunch 5%nat 1%nat; EvCancel 5%nat]
  ∧ dict_get "s2" (sessions w2) = Some 1%nat.
Proof.
  destruct (restart_cancels_workflow_launched_at_end
              (steady noon) (steady next_day_1158) session_ended_s1
              restart_next_day world_ended_and_recording
              [0%nat] [] [session_ended_at_eleven] 1%nat
              (Session.mk "s1" 100 "name" "title" (Datetime.mk 2021 3 1 11 30 0 0)
                          None [] None None)
              eq_refl eq_refl eq_refl eq_refl eq_refl)
    as (_ & _ & Htr & _ & Hget & _).
  - apply (bool_decide_unpack _). vm_compute. reflexivity.
  - repeat constructor.
  - vm_compute. split; [reflexivity|exact I].
  - vm_compute. reflexivity.
  - cbn zeta. split; [exact Htr|exact Hget].
Defined.

(** ** The upload worker over several iterations *)

Lemma uploader_iter_ok (upload : upload_call) (w : World) (t : UploadTask.t)
    (q : list UploadTask.t) (bv_id : string) :
  video_upload_queue w = t :: q →
  upload t (TaskSave.session_id_map (save w)) = Ok bv_id →
  video_uploader_iter upload w = Some (Ok tt, world_after_upload t q bv_id w).
Proof.
  intros Hq Hup. unfold video_uploader_iter. rewrite Hq.
  unfold video_uploader_body. unfold_monad. cbn. rewrite Hup. cbn.
  unfold world_after_upload. cbn. by rewrite <- !app_assoc.
Qed.

Lemma uploader_iter_exc (upload : upload_call) (w : World) (t : UploadTask.t)
    (q : list UploadTask.t) (e : exn) :
  video_upload_queue w = t :: q →
  upload t (TaskSave.session_id_map (save w)) = Exc e →
  is_Exception e = true →
  ∃ w', video_uploader_iter upload w = Some (Ok tt, w')
        ∧ video_upload_queue w' = queue_after_failure t q
        ∧ save w' = save w
        ∧ save_file w' = save_file w
        ∧ comment_post_queue w' = comment_post_queue w
        ∧ sessions w' = sessions w
        ∧ heap w' = heap w
        ∧ lock_ok false (new_events w w') = true.
Proof.
  intros Hq Hup He. unfold video_uploader_iter. rewrite Hq.
  unfold video_uploader_body. unfold_monad. cbn. rewrite Hup, He.
  unfold queue_after_failure, new_events.
  destruct (UploadTask.trial t <? 5); eexists; (split; [reflexivity|]); cbn;
    rewrite <- !app_assoc, drop_app_length; done.
Qed.

Lemma uploader_iter_propagates (upload : upload_call) (w : World) (t : UploadTask.t)
    (q : list UploadTask.t) (e : exn) :
  video_upload_queue w = t :: q →
  upload t (TaskSave.session_id_map (save w)) = Exc e →
  is_Exception e = false →
  video_uploader_iter upload w = Some (Exc e, set_video_upload_queue q w).
Proof.
  intros Hq Hup He. unfold video_uploader_iter. rewrite Hq.
  unfold video_uploader_body. unfold_monad. cbn. by rewrite Hup, He.
Qed.

Lemma attempts_left_pos (t : UploadTask.t) : (1 <= attempts_left t)%nat.
Proof. unfold attempts_left. lia. Qed.

Lemma retry_budget_app (q1 q2 : list UploadTask.t) :
  retry_budget (q1 ++ q2) = (retry_budget q1 + retry_budget q2)%nat.
Proof. induction q1 as [|t q1 IH]; cbn; [done|]. rewrite IH. lia. Qed.

Lemma retry_budget_zero (q : list UploadTask.t) : retry_budget q = 0%nat → q = [].
Proof.
  destruct q as [|t q]; [done|]. cbn. pose proof (attempts_left_pos t). lia.
Qed.

Lemma retry_budget_after_failure (t : UploadTask.t) (q : list UploadTask.t) :
  S (retry_budget (queue_after_failure t q)) = retry_budget (t :: q).
Proof.
  unfold queue_after_failure. cbn [retry_budget].
  destruct (Z.ltb_spec (UploadTask.trial t) 5).
  - rewrite retry_budget_app. cbn. unfold attempts_left. cbn. lia.
  - unfold attempts_left. lia.
Qed.

(** X9. Retries are bounded. When every upload call fails with an
    exception that is an [Exception], each iteration
    of the upload worker uses up exactly one of the attempts left to the tasks
    of the queue (six minus [trial] for a task with [trial < 5], one
    otherwise); once they are used up the queue is empty, and the save state
    and the save file were never touched. *)
Theorem failing_uploads_drain_the_queue (uploads : list upload_call) (w : World) :
  Forall always_fails uploads →
  (length uploads <= retry_budget (video_upload_queue w))%nat →
  let w' := video_uploader_run uploads w in
  retry_budget (video_upload_queue w')
  = (retry_budget (video_upload_queue w) - length uploads)%nat
  ∧ save w' = save w
  ∧ save_file w' = save_file w
  ∧ (length uploads = retry_budget (video_upload_queue w) →
     video_upload_queue w' = []).
Proof.
  revert w. induction uploads as [|upload rest IH]; intros w Hall Hlen; cbn zeta.
  - cbn. split; [lia|]. split; [done|]. split; [done|].
    intros H. by apply retry_budget_zero.
  - apply Forall_cons_iff in Hall as [Hfail Hrest]. cbn [length] in Hlen.
    destruct (video_upload_queue w) as [|t q] eqn:Hq; [cbn in Hlen; lia|].
    destruct (Hfail t (TaskSave.session_id_map (save w))) as (e & He & Hcaught).
    destruct (uploader_iter_exc upload w t q e Hq He Hcaught)
      as (w1 & Hiter & Hq1 & Hs1 & Hf1 & _).
    cbn [video_uploader_run]. rewrite Hiter.
    pose proof (retry_budget_after_failure t q) as Hb. rewrite <- Hq1 in Hb.
    destruct (IH w1 Hrest) as (H1 & H2 & H3 & H4); [lia|].
    cbn zeta in H1, H2, H3, H4. cbn [length].
    split; [lia|]. split; [congruence|]. split; [congruence|].
    intros Heq. apply H4. lia.
Qed.

Lemma failing_uploads_drain_the_queue_witness :
  video_upload_queue
    (video_uploader_run (replicate 9 upload_always_fails)
                        (world_with_uploads [sample_task 3; other_task]))
  = [].
Proof.
  destruct (failing_uploads_drain_the_queue (replicate 9 upload_always_fails)
              (world_with_uploads [sample_task 3; other_task]))
    as (_ & _ & _ & Hempty).
  - repeat constructor; intros t m; eexists; split; reflexivity.
  - vm_compute. lia.
  - apply Hempty. reflexivity.
Defined.

(** X10. The id map holds one published id per session: when two tasks of
    the same session are uploaded successfully one after the other (the early
    cut and the danmaku cut of a session), the id of the second replaces the
    id of the first, the entries of all other sessions are as before, and
    the save file holds the resulting state. *)
Theorem second_upload_replaces_published_id
    (upload1 upload2 : upload_call) (w : World) (t1 t2 : UploadTask.t)
    (q : list UploadTask.t) (bv1 bv2 : string) :
  video_upload_queue w = t1 :: t2 :: q →
  UploadTask.session_id t2 = UploadTask.session_id t1 →
  upload1 t1 (TaskSave.session_id_map (save w)) = Ok bv1 →
  upload2 t2 (<[UploadTask.session_id t1 := bv1]> (TaskSave.session_id_map (save w)))
  = Ok bv2 →
  let w' := video_uploader_run [upload1; upload2] w in
  TaskSave.session_id_map (save w') !! UploadTask.session_id t1 = Some bv2
  ∧ (∀ sid, sid ≠ UploadTask.session_id t1 →
       TaskSave.session_id_map (save w') !! sid
       = TaskSave.session_id_map (save w) !! sid)
  ∧ video_upload_queue w' = q
  ∧ in_sync w'.
Proof.
  intros Hq Hsid Hup1 Hup2. cbn zeta. cbn [video_uploader_run].
  rewrite (uploader_iter_ok upload1 w t1 (t2 :: q) bv1 Hq Hup1).
  rewrite (uploader_iter_ok upload2 (world_after_upload t1 (t2 :: q) bv1 w) t2 q bv2);
    [|reflexivity|exact Hup2].
  unfold in_sync. cbn. rewrite Hsid.
  split; [apply lookup_insert_eq|]. split; [|done].
  intros sid Hne. by rewrite !lookup_insert_ne.
Qed.

Lemma second_upload_replaces_published_id_witness :
  TaskSave.session_id_map
    (save (video_uploader_run [upload_returns "BV1early"; upload_returns "BV1danmaku"]
                              (world_with_uploads [early_s1; danmaku_s1])))
  !! "s1" = Some "BV1danmaku".
Proof.
  destruct (second_upload_replaces_published_id
              (upload_returns "BV1early") (upload_returns "BV1danmaku")
              (world_with_uploads [early_s1; danmaku_s1]) early_s1 danmaku_s1 []
              "BV1early" "BV1danmaku" eq_refl eq_refl eq_refl eq_refl)
    as (H & _).
  exact H.
Defined.

(** ** The two workers and the save file *)

(** X11. The two workers keep the save file in step with the save state:
    if the file holds the current SaveState before an iteration of the upload
    worker or a cycle of the comment worker, it holds the current SaveState
    after it, whatever the upload and post calls answer. *)
Theorem workers_keep_save_file_in_sync (w : World) :
  in_sync w →
  (∀ upload r w', video_uploader_iter upload w = Some (r, w') → in_sync w')
  ∧ (∀ post, in_sync (snd (comment_poster_cycle post w))).
Proof.
  intros Hsync. split.
  - intros upload r w' Hiter.
    destruct (video_upload_queue w) as [|t q] eqn:Hq.
    { unfold video_uploader_iter in Hiter. by rewrite Hq in Hiter. }
    destruct (upload t (TaskSave.session_id_map (save w))) as [bv|e] eqn:Hup.
    + rewrite (uploader_iter_ok upload w t q bv Hq Hup) in Hiter.
      injection Hiter as _ <-. reflexivity.
    + destruct (is_Exception e) eqn:He.
      * destruct (uploader_iter_exc upload w t q e Hq Hup He)
          as (w1 & Hiter1 & _ & Hs & Hf & _).
        rewrite Hiter1 in Hiter. injection Hiter as _ <-.
        unfold in_sync. by rewrite Hs, Hf.
      * rewrite (uploader_iter_propagates upload w t q e Hq Hup He) in Hiter.
        injection Hiter as _ <-. exact Hsync.
  - intros post.
    destruct (comment_poster_cycle_shape post w)
      as (w1 & docs & _ & _ & Hsave & Hfile & _ & _ & _ & _ & _ & Hcycle).
    assert (Hsync1 : in_sync w1).
    { unfold in_sync. rewrite Hfile.
      destruct (comment_post_queue w) eqn:Hq; [|done].
      rewrite Hsave. unfold attempted. rewrite Hq, set_active_app_nil. exact Hsync. }
    rewrite Hcycle.
    destruct (cycle_outcome post _ _) as [|remaining|e];
      [| |destruct (is_Exception e)]; unfold in_sync; cbn; done.
Qed.

Lemma workers_keep_save_file_in_sync_witness :
  in_sync (snd (comment_poster_cycle post_first_ok_second_fails world_comments_queued)).
Proof.
  destruct (workers_keep_save_file_in_sync world_comments_queued) as [_ H].
  - reflexivity.
  - apply H.
Defined.

(** X12. Lock discipline of the two workers: in the events of one
    iteration of the upload worker and of one cycle of the comment worker, the
    save lock is acquired only when free and released only when held, every
    write of the save file happens while the lock is held, and the lock is
    free at the end, also when an upload or a post attempt raises. *)
Theorem workers_write_only_under_lock (w : World) :
  (∀ upload r w',
     video_uploader_iter upload w = Some (r, w') →
     lock_ok false (new_events w w') = true)
  ∧ (∀ post, lock_ok false (new_events w (snd (comment_poster_cycle post w))) = true).
Proof.
  split.
  - intros upload r w' Hiter.
    destruct (video_upload_queue w) as [|t q] eqn:Hq.
    { unfold video_uploader_iter in Hiter. by rewrite Hq in Hiter. }
    destruct (upload t (TaskSave.session_id_map (save w))) as [bv|e] eqn:Hup.
    + rewrite (uploader_iter_ok upload w t q bv Hq Hup) in Hiter.
      injection Hiter as _ <-.
      unfold world_after_upload.
      erewrite new_events_app; [|cbn; reflexivity]. reflexivity.
    + destruct (is_Exception e) eqn:He.
      * destruct (uploader_iter_exc upload w t q e Hq Hup He)
          as (w1 & Hiter1 & _ & _ & _ & _ & _ & _ & Hlock).
        rewrite Hiter1 in Hiter. by injection Hiter as _ <-.
      * rewrite (uploader_iter_propagates upload w t q e Hq Hup He) in Hiter.
        injection Hiter as _ <-.
        erewrite new_events_app; [|cbn; by rewrite app_nil_r]. reflexivity.
  - intros post. destruct (comment_poster_cycle_events post w) as (docs & _ & ->).
    cbn [app lock_ok negb andb]. rewrite lock_ok_writes.
    destruct (cycle_outcome post _ _) as [|remaining|e];
      [| |destruct (is_Exception e)]; reflexivity.
Qed.

Lemma workers_write_only_under_lock_witness :
  ∃ w', video_uploader_iter upload_always_succeeds
          (world_with_uploads [sample_task 0; other_task]) = Some (Ok tt, w')
        ∧ lock_ok false (new_events (world_with_uploads [sample_task 0; other_task]) w')
          = true.
Proof.
  destruct (workers_write_only_under_lock
              (world_with_uploads [sample_task 0; other_task])) as [H _].
  exists (world_after_upload (sample_task 0) [other_task] "BV1xx"
            (world_with_uploads [sample_task 0; other_task])).
  split; [vm_compute; reflexivity|].
  apply (H upload_always_succeeds (Ok tt)). vm_compute. reflexivity.
Defined.

(** X13. Every cycle of the comment worker leaves the comment queue
    empty, ends with the sleep of 60 seconds, and touches neither the id map,
    the upload queue, the registry nor the Session objects, whatever the post
    calls answer or raise. It returns normally unless a post attempt raises
    an exception that is not an [Exception]: that exception, the first one
    raised in the cycle, leaves the worker after the sleep. *)
Theorem comment_cycle_drains_and_sleeps (post : post_call) (w : World) :
  let w' := snd (comment_poster_cycle post w) in
  fst (comment_poster_cycle post w)
  = match first_exception post (TaskSave.session_id_map (save w)) 0 (attempted w) with
    | Some e => if is_Exception e then Ok tt else Exc e
    | None => Ok tt
    end
  ∧ comment_post_queue w' = []
  ∧ last (trace w') = Some (EvSleep 60)
  ∧ TaskSave.session_id_map (save w') = TaskSave.session_id_map (save w)
  ∧ video_upload_queue w' = video_upload_queue w
  ∧ sessions w' = sessions w
  ∧ heap w' = heap w.
Proof.
  cbn zeta.
  destruct (comment_poster_cycle_shape post w)
    as (w1 & docs & _ & _ & Hsave & _ & Hq & Hse & Hh & Hu & _ & Hcycle).
  rewrite Hcycle. unfold cycle_outcome.
  destruct (first_exception post _ 0 (attempted w)) as [e|].
  - destruct (is_Exception e); cbn; rewrite ?Hsave;
      repeat split; try done; by rewrite last_app.
  - destruct (attempted w) as [|t0 ts]; cbn; rewrite ?Hsave;
      repeat split; try done; by rewrite last_app.
Qed.

(** X14. The number of times a cycle of the comment worker overwrites the
    save file: once for every task it takes from the comment queue, plus once
    more for the removal phase unless an attempt raised or there was nothing
    to attempt. *)
Theorem comment_cycle_write_count (post : post_call) (w : World) :
  length (writes (new_events w (snd (comment_poster_cycle post w))))
  = (length (comment_post_queue w)
     + if any_raises post (TaskSave.session_id_map (save w)) (attempted w) then 0
       else match attempted w with [] => 0 | _ => 1 end)%nat.
Proof.
  destruct (comment_poster_cycle_events post w) as (docs & Hlen & ->).
  rewrite !writes_app, writes_map, !length_app, Hlen. cbn [writes length].
  destruct (cycle_outcome_cases post (TaskSave.session_id_map (save w)) (attempted w))
    as [[-> [e ->]]|[(-> & -> & ->)|(-> & Hne & ->)]]; cbn;
    [destruct (is_Exception e); cbn; lia|lia|].
  destruct (attempted w); [done|]. lia.
Qed.

(** X15. When a post attempt raises, the exception that counts is the
    one of the first attempt that raised, in the order of the active list:
    the cycle removes nothing, writes nothing after the drain, and still ends
    with the sleep. If that exception is an [Exception] the cycle reports it
    and returns normally; if it is not (a cancellation, a keyboard interrupt)
    the cycle reports nothing and the exception leaves the worker. *)
Theorem first_raising_attempt_is_reported (post : post_call) (w : World)
    (i : nat) (t : CommentTask.t) (e : exn) :
  attempted w !! i = Some t →
  post i t (TaskSave.session_id_map (save w)) = Exc e →
  (∀ j t', (j < i)%nat → attempted w !! j = Some t' →
           ∃ b, post j t' (TaskSave.session_id_map (save w)) = Ok b) →
  let w' := snd (comment_poster_cycle post w) in
  fst (comment_poster_cycle post w) = (if is_Exception e then Ok tt else Exc e)
  ∧ TaskSave.active_comment_tasks (save w') = attempted w
  ∧ ∃ docs,
      length docs = length (comment_post_queue w)
      ∧ new_events w w'
        = [EvAcquire] ++ map EvWrite docs ++ [EvRelease]
          ++ (if is_Exception e
              then [EvPrint (MsgUnknownPostingException e); EvTraceback]
              else [])
          ++ [EvSleep 60].
Proof.
  intros Hi He Hbefore. cbn zeta.
  assert (Hout : cycle_outcome post (TaskSave.session_id_map (save w)) (attempted w)
                 = Aborted e).
  { unfold cycle_outcome.
    by rewrite (first_exception_at post _ (attempted w) 0%nat i t e Hi He Hbefore). }
  destruct (comment_poster_cycle_shape post w)
    as (w1 & docs1 & _ & _ & Hsave & _ & _ & _ & _ & _ & _ & Hcycle).
  split; [rewrite Hcycle, Hout; by destruct (is_Exception e)|].
  split; [rewrite Hcycle, Hout; destruct (is_Exception e); cbn; by rewrite Hsave|].
  destruct (comment_poster_cycle_events post w) as (docs & Hlen & Hev).
  exists docs. split; [exact Hlen|]. rewrite Hev, Hout. reflexivity.
Qed.

Lemma first_raising_attempt_is_reported_witness :
  (∃ docs,
     new_events world_comments_queued
                (snd (comment_poster_cycle post_second_times_out world_comments_queued))
     = [EvAcquire] ++ map EvWrite docs
       ++ [EvRelease; EvPrint (MsgUnknownPostingException (Exception "timeout"));
           EvTraceback; EvSleep 60])
  ∧ fst (comment_poster_cycle post_second_cancelled world_comments_queued)
    = Exc CancelledError.
Proof.
  split.
  - destruct (first_raising_attempt_is_reported post_second_times_out
                world_comments_queued 1%nat comment1 (Exception "timeout"))
      as (_ & _ & docs & _ & Hev).
    + reflexivity.
    + reflexivity.
    + intros j t' Hj Hj'. destruct j as [|j]; [|lia]. by exists true.
    + exists docs. exact Hev.
  - destruct (first_raising_attempt_is_reported post_second_cancelled
                world_comments_queued 1%nat comment1 CancelledError)
      as (H & _).
    + reflexivity.
    + reflexivity.
    + intros j t' Hj Hj'. destruct j as [|j]; [|lia]. by exists true.
    + exact H.
Defined.

(** ** The upload workflow: configuration and aborts *)

Lemma fold_left_last_match {A} (p : A → bool) (l : list A) (acc : option A) :
  fold_left (fun found x => if p x then Some x else found) l acc
  = match last (List.filter p l) with
    | Some x => Some x
    | None => acc
    end.
Proof.
  revert acc. induction l as [|x l IH]; intros acc; [done|].
  cbn [fold_left List.filter]. rewrite IH.
  destruct (p x); [|done]. rewrite last_cons. by destruct (last (List.filter p l)).
Qed.

(** X16. The room configuration used by the workflow is the last entry of
    the configured rooms whose id is the session's room id; there is none
    exactly when no configured room has that id. *)
Theorem find_room_config_last_match (config : RecorderConfig.t) (room_id : Z) :
  find_room_config config room_id
  = last (List.filter (fun room => RoomConfig.id room =? room_id)
                      (RecorderConfig.rooms config))
  ∧ (find_room_config config room_id = None
     ↔ Forall (fun room => RoomConfig.id room ≠ room_id) (RecorderConfig.rooms config)).
Proof.
  assert (Heq : find_room_config config room_id
                = last (List.filter (fun room => RoomConfig.id room =? room_id)
                                    (RecorderConfig.rooms config))).
  { unfold find_room_config. rewrite fold_left_last_match.
    by destruct (last _). }
  split; [exact Heq|]. rewrite Heq, last_None. clear Heq.
  induction (RecorderConfig.rooms config) as [|room l IH]; [done|].
  cbn [List.filter]. rewrite Forall_cons_iff.
  destruct (Z.eqb_spec (RoomConfig.id room) room_id); [split; [done|tauto]|].
  rewrite IH. tauto.
Qed.

Section WorkflowAborts.

Variable output_path : Session.t → string → string.
Variable substitute : string → list (string * string) → Result string.
Variable config : RecorderConfig.t.

(** The workflow at its start: it suspends at the early cut without having
    changed anything, or it is over, having at most printed one message. *)
Lemma upload_video_start (session : ref) (w : World) :
  reaches_early_cut output_path substitute config session w
  ∨ (∃ e, upload_video output_path substitute config session w = (Exc e, w))
  ∨ (∃ m, upload_video output_path substitute config session w
          = (Ok Finished, set_trace (trace w ++ [EvPrint m]) w)).
Proof.
  unfold reaches_early_cut, upload_video, deref, bind, lift, ret, emit, modify.
  destruct (heap w !! session) as [s|]; [|right; left; by eexists].
  destruct (find_room_config config (Session.room_id s)) as [rc|];
    [|right; right; by eexists].
  destruct (RoomConfig.uploader rc) as [uid|]; [|right; right; by eexists].
  destruct (accounts_getitem config uid) as [acc|]; [|right; left; by eexists].
  destruct (videos_getitem0 s) as [v0|]; [|right; left; by eexists].
  destruct (substitute (RoomConfig.title rc) _) as [title|];
    [|right; left; by eexists].
  destruct (substitute (RoomConfig.description rc) _) as [description|];
    [|right; left; by eexists].
  left. exact I.
Qed.

(** X17. A workflow that does not reach the generation of the early cut
    (room not configured, no uploader, unknown account, no recorded file,
    template error) is over at once: whatever answers are offered afterwards,
    it has enqueued nothing, changed no Session object and not touched the save
    state; it has printed at most one message. *)
Theorem workflow_abort_enqueues_nothing (session : ref) (w : World)
    (answers : list (option string)) :
  ¬ reaches_early_cut output_path substitute config session w →
  let w' := snd (run_upload_video output_path substitute config session answers w) in
  (fst (run_upload_video output_path substitute config session answers w) = Ok Finished
   ∨ ∃ e, fst (run_upload_video output_path substitute config session answers w)
          = Exc e)
  ∧ video_upload_queue w' = video_upload_queue w
  ∧ comment_post_queue w' = comment_post_queue w
  ∧ heap w' = heap w
  ∧ save w' = save w
  ∧ save_file w' = save_file w
  ∧ (length (new_events w w') <= 1)%nat.
Proof.
  intros Hnot. cbn zeta. unfold run_upload_video.
  destruct (upload_video_start session w) as [H|[[e H]|[m H]]]; [done| |].
  - rewrite (bind_exc _ _ _ _ _ H). cbn.
    split; [right; by exists e|]. rewrite (new_events_same w w eq_refl). cbn.
    repeat split; lia.
  - rewrite (bind_ok _ _ _ _ _ H).
    assert (Hres : ∀ w0, resume_with answers Finished w0 = (Ok Finished, w0))
      by (intros w0; by destruct answers).
    rewrite Hres. cbn [fst snd].
    split; [by left|].
    rewrite (new_events_app w (set_trace (trace w ++ [EvPrint m]) w) [EvPrint m]);
      [|reflexivity].
    cbn. repeat split; lia.
Qed.

(** X18. Lookup errors at the start of the workflow, for a session whose
    room is configured with an uploader: an uploader that is not among the
    accounts raises [KeyError], also when the session has no recorded file;
    with a known account, a session that has no recorded file raises
    [IndexError]. In both cases nothing has been printed, enqueued or
    changed. *)
Theorem workflow_lookup_errors (session : ref) (w : World) (s : Session.t)
    (room_config : RoomConfig.t) (uploader_id : string) :
  heap w !! session = Some s →
  find_room_config config (Session.room_id s) = Some room_config →
  RoomConfig.uploader room_config = Some uploader_id →
  (RecorderConfig.accounts config !! uploader_id = None →
   upload_video output_path substitute config session w = (Exc KeyError, w))
  ∧ (is_Some (RecorderConfig.accounts config !! uploader_id) →
     Session.videos s = [] →
     upload_video output_path substitute config session w = (Exc IndexError, w)).
Proof.
  intros Hs Hrc Hup. unfold upload_video, deref, bind, lift.
  rewrite Hs, Hrc, Hup. unfold accounts_getitem, videos_getitem0. split.
  - by intros ->.
  - intros [acc ->] ->. reflexivity.
Qed.

End WorkflowAborts.

Lemma workflow_abort_enqueues_nothing_witness :
  video_upload_queue
    (snd (run_upload_video sample_output_path sample_substitute config_duplicate_room
                           0%nat [Some "early.flv"; None; Some "danmaku.mp4"]
                           world_ended))
  = [].
Proof.
  destruct (workflow_abort_enqueues_nothing sample_output_path sample_substitute
              config_duplicate_room 0%nat world_ended
              [Some "early.flv"; None; Some "danmaku.mp4"]) as (_ & H & _).
  - vm_compute. intros H. exact H.
  - exact H.
Defined.

Lemma workflow_lookup_errors_witness :
  upload_video sample_output_path sample_substitute config_missing_account
               0%nat world_ended
  = (Exc KeyError, world_ended)
  ∧ upload_video sample_output_path sample_substitute sample_config
                 0%nat world_recording
    = (Exc IndexError, world_recording).
Proof.
  split.
  - destruct (workflow_lookup_errors sample_output_path sample_substitute
                config_missing_account 0%nat world_ended ended_session
                (RoomConfig.mk 100 (Some "nobody") "title template"
                               "description template" "source" "tags" 21)
                "nobody" eq_refl eq_refl eq_refl) as [H _].
    apply H. vm_compute. reflexivity.
  - destruct (workflow_lookup_errors sample_output_path sample_substitute
                sample_config 0%nat world_recording recording_session
                (RoomConfig.mk 100 (Some "acc") "title template"
                               "description template" "source" "tags" 21)
                "acc" eq_refl eq_refl eq_refl) as [_ H].
    apply H; [|reflexivity]. eexists. vm_compute. reflexivity.
Defined.

(** ** Frames *)

Lemma continue_session_frame (clock : nat → Datetime.t) (k : nat) (room_id : Z)
    (session_id : string) (values : list ref) (w : World) :
  let w' := snd (continue_session clock k room_id session_id values w) in
  save w' = save w
  ∧ save_file w' = save_file w
  ∧ video_upload_queue w' = video_upload_queue w
  ∧ comment_post_queue w' = comment_post_queue w
  ∧ heap w' = heap w
  ∧ next_future w' = next_future w.
Proof.
  revert k. induction values as [|r rest IH]; intros k; [done|]. cbn zeta.
  destruct (heap w !! r) as [s|] eqn:Hs.
  - rewrite (continue_session_cons _ _ _ _ _ _ _ _ Hs).
    destruct (Session.room_id s =? room_id); [|apply IH].
    destruct (continuation_test (clock k) room_id s) as [[]|];
      [done|apply IH|done].
  - by rewrite (continue_session_dangling _ _ _ _ _ _ _ Hs).
Qed.

(** X19. [handle_update] never enqueues a task and never touches the save
    state or the save file, whatever the event and whether it returns or
    raises; the queues are fed by the workflows it launches, not by the event
    handler. *)
Theorem handle_update_touches_no_queue_or_save (now : nat → Datetime.t) (u : Update.t)
    (w : World) :
  let w' := snd (handle_update now u w) in
  video_upload_queue w' = video_upload_queue w
  ∧ comment_post_queue w' = comment_post_queue w
  ∧ save w' = save w
  ∧ save_file w' = save_file w.
Proof.
  cbn zeta. destruct (String.eqb (Update.EventType u) "SessionStarted") eqn:E.
  - apply String.eqb_eq in E. rewrite (handle_update_started now u w E).
    destruct (continue_session_frame now 0 (Update.RoomId u) (Update.SessionId u)
                (dict_values (sessions w)) w) as (H1 & H2 & H3 & H4 & _).
    destruct (continue_session _ _ _ _ _ w) as [[[]|e] w']; cbn in *; done.
  - assert (Htype : Update.EventType u ≠ "SessionStarted").
    { intros Heq. rewrite Heq in E. discriminate. }
    destruct (dict_get (Update.SessionId u) (sessions w)) as [r|] eqn:Hget.
    + rewrite (handle_update_registered now u w r Htype Hget). cbn [snd].
      destruct (String.eqb (Update.EventType u) "FileClosed");
        [|destruct (String.eqb (Update.EventType u) "SessionEnded")]; done.
    + unfold handle_update. rewrite E. unfold_monad. rewrite Hget. done.
Qed.

(** X20. One iteration of the upload worker takes the head of the queue
    and either drops it or puts that same task back at the tail with [trial]
    increased by one: the queue never grows and no task is invented. The
    iteration touches neither the comment queue, the active comment tasks, the
    registry nor the Session objects. It returns normally unless the upload
    call raises an exception that is not an [Exception]: that exception leaves
    the worker, and the task is dropped. *)
Theorem uploader_iteration_frame (upload : upload_call) (w w' : World)
    (r : Result unit) :
  video_uploader_iter upload w = Some (r, w') →
  (∃ t q, video_upload_queue w = t :: q
          ∧ (video_upload_queue w' = q
             ∨ video_upload_queue w'
               = q ++ [UploadTask.set_trial (UploadTask.trial t + 1) t])
          ∧ (r = Ok tt
             ∨ ∃ e, upload t (TaskSave.session_id_map (save w)) = Exc e
                    ∧ is_Exception e = false
                    ∧ r = Exc e
                    ∧ video_upload_queue w' = q))
  ∧ (length (video_upload_queue w') <= length (video_upload_queue w))%nat
  ∧ comment_post_queue w' = comment_post_queue w
  ∧ TaskSave.active_comment_tasks (save w') = TaskSave.active_comment_tasks (save w)
  ∧ sessions w' = sessions w
  ∧ heap w' = heap w.
Proof.
  intros Hiter.
  destruct (video_upload_queue w) as [|t q] eqn:Hq.
  { unfold video_uploader_iter in Hiter. by rewrite Hq in Hiter. }
  destruct (upload t (TaskSave.session_id_map (save w))) as [bv|e] eqn:Hup.
  - rewrite (uploader_iter_ok upload w t q bv Hq Hup) in Hiter.
    injection Hiter as <- <-. cbn.
    split; [exists t, q; split; [done|]; split; by left|].
    repeat split; try done. lia.
  - destruct (is_Exception e) eqn:He.
    + destruct (uploader_iter_exc upload w t q e Hq Hup He)
        as (w1 & Hiter1 & Hq1 & Hs & _ & Hc & Hse & Hh & _).
      rewrite Hiter1 in Hiter. injection Hiter as <- <-.
      rewrite Hq1, Hs. unfold queue_after_failure.
      split; [exists t, q; split; [done|]; split; [|by left];
              destruct (_ <? _); [by right|by left]|].
      repeat split; try done.
      destruct (_ <? _); rewrite ?length_app; cbn; lia.
    + rewrite (uploader_iter_propagates upload w t q e Hq Hup He) in Hiter.
      injection Hiter as <- <-. cbn.
      split; [exists t, q; split; [done|]; split; [by left|]; right; by exists e|].
      repeat split; try done. lia.
Qed.

Lemma uploader_iteration_frame_witness :
  (length (video_upload_queue
             (mkWorld [] [] [other_task] [] TaskSave.empty
                      (Some (SaveDoc.to_dict TaskSave.empty)) 0%nat
                      [EvPrint (MsgUploadFailedTooManyTimes "a title"); EvTraceback]))
   <= length (video_upload_queue (world_with_uploads [sample_task 5; other_task])))%nat.
Proof.
  destruct (uploader_iteration_frame upload_always_fails
              (world_with_uploads [sample_task 5; other_task])
              (mkWorld [] [] [other_task] [] TaskSave.empty
                       (Some (SaveDoc.to_dict TaskSave.empty)) 0%nat
                       [EvPrint (MsgUploadFailedTooManyTimes "a title"); EvTraceback])
              (Ok tt) eq_refl) as (_ & H & _).
  exact H.
Defined.

(** ** The tasks of a complete run *)

Section WorkflowTasks.

Variable output_path : Session.t → string → string.
Variable substitute : string → list (string * string) → Result string.
Variable config : RecorderConfig.t.

(** X21. A run of the workflow that reaches the early cut and is resumed
    to its end enqueues one or two upload tasks and exactly one comment task;
    every one of them carries the session's id, every upload task starts with
    [trial = 0], and the run itself never writes the save file nor touches
    the save state or the registry, whatever the three answers are. *)
Theorem complete_run_tasks (session : ref) (w : World) (s : Session.t)
    (a_early a_sleep a_danmaku : option string) :
  heap w !! session = Some s →
  reaches_early_cut output_path substitute config session w →
  ∃ w',
    run_upload_video output_path substitute config session
                     [a_early; a_sleep; a_danmaku] w = (Ok Finished, w')
    ∧ Forall (fun t => UploadTask.trial t = 0
                       ∧ UploadTask.session_id t = Session.session_id s)
             (upload_puts (new_events w w'))
    ∧ (1 <= length (upload_puts (new_events w w')) <= 2)%nat
    ∧ (∃ c, comment_puts (new_events w w') = [c]
            ∧ CommentTask.session_id c = Session.session_id s)
    ∧ writes (new_events w w') = []
    ∧ save w' = save w
    ∧ save_file w' = save_file w
    ∧ sessions w' = sessions w.
Proof.
  intros Hs Hreach.
  destruct (reaches_early_cut_inv output_path substitute config session w Hreach)
    as (s0 & rc & acc & title & description & Hs0 & Hup).
  assert (s0 = s) as -> by congruence.
  unfold run_upload_video. rewrite (bind_ok _ _ _ _ _ Hup). cbn [resume_with].
  unfold after_early, after_sleep, after_danmaku, gen_early_video,
    gen_danmaku_video, deref.
  unfold_monad. cbn. rewrite list_lookup_alter_eq, Hs. cbn.
  destruct a_early as [p|]; cbn; rewrite ?list_lookup_alter_eq, ?Hs; cbn;
    (eexists; split; [reflexivity|]); unfold new_events; cbn;
    rewrite <- ?app_assoc, drop_app_length; cbn.
  - split; [repeat constructor|]. split; [lia|].
    split; [eexists; split; reflexivity|]. done.
  - split; [repeat constructor|]. split; [lia|].
    split; [eexists; split; reflexivity|]. done.
Qed.

End WorkflowTasks.

Lemma complete_run_tasks_witness :
  ∃ w',
    run_upload_video sample_output_path sample_substitute sample_config 0%nat
                     [Some "early.flv"; None; Some "danmaku.mp4"] world_ended
    = (Ok Finished, w')
    ∧ length (upload_puts (new_events world_ended w')) = 2%nat
    ∧ writes (new_events world_ended w') = [].
Proof.
  destruct (complete_run_tasks sample_output_path sample_substitute sample_config
              0%nat world_ended ended_session
              (Some "early.flv") None (Some "danmaku.mp4") eq_refl)
    as (w' & Hrun & _ & _ & _ & Hw & _).
  - vm_compute. exact I.
  - exists w'. split; [exact Hrun|]. split; [|exact Hw].
    assert (Hrun' := Hrun). vm_compute in Hrun'. injection Hrun' as <-.
    reflexivity.
Defined.

(** ** From the end of a session to the posted comment *)

Lemma unposted_all_succeed (post : post_call) (m : gmap string string)
    (tasks : list CommentTask.t) :
  (∀ i t, reports_success post m i t = true) →
  unposted post m tasks = [].
Proof.
  intros Hok. unfold unposted, enumerate.
  generalize 0%nat. induction tasks as [|t rest IH]; intros idx; [done|].
  cbn. rewrite Hok. cbn. apply IH.
Qed.

Section Pipeline.

Variable output_path : Session.t → string → string.
Variable substitute : string → list (string * string) → Result string.
Variable config : RecorderConfig.t.

(** The queues after a complete run started with empty queues. *)
Lemma complete_run_queues (session : ref) (w : World) (s : Session.t)
    (a_early a_sleep a_danmaku : option string) :
  heap w !! session = Some s →
  reaches_early_cut output_path substitute config session w →
  ∃ w' early dt,
    run_upload_video output_path substitute config session
                     [a_early; a_sleep; a_danmaku] w = (Ok Finished, w')
    ∧ UploadTask.danmaku dt = true
    ∧ UploadTask.session_id dt = Session.session_id s
    ∧ video_upload_queue w' = video_upload_queue w ++ early ++ [dt]
    ∧ (length early <= 1)%nat
    ∧ (∃ c, comment_post_queue w' = comment_post_queue w ++ [c])
    ∧ save w' = save w.
Proof.
  intros Hs Hreach.
  destruct (reaches_early_cut_inv output_path substitute config session w Hreach)
    as (s0 & rc & acc & title & description & Hs0 & Hup).
  assert (s0 = s) as -> by congruence.
  unfold run_upload_video. rewrite (bind_ok _ _ _ _ _ Hup). cbn [resume_with].
  unfold after_early, after_sleep, after_danmaku, gen_early_video,
    gen_danmaku_video, deref.
  unfold_monad. cbn. rewrite list_lookup_alter_eq, Hs. cbn.
  destruct a_early as [p|]; cbn; rewrite ?list_lookup_alter_eq, ?Hs; cbn.
  - eexists _, [_], (UploadTask.mk _ _ _ _ _ _ _ _ _ _ _ _ _).
    split; [reflexivity|]. cbn. rewrite <- ?app_assoc. cbn.
    repeat split; try done. by eexists.
  - eexists _, [], (UploadTask.mk _ _ _ _ _ _ _ _ _ _ _ _ _).
    split; [reflexivity|]. cbn.
    repeat split; try done; [lia|]. by eexists.
Qed.

(** X22. From the end of a session to the posted comment. Start with empty
    queues and no active comment task; run the workflow of a session to its
    end, let the upload worker take two iterations with upload calls that
    succeed, then let the comment worker make one cycle in which every post
    succeeds. Then both queues and the active list are empty again, the id map
    holds for the session the id under which the danmaku upload task was
    published, and the save file holds that state. *)
Theorem session_end_to_posted_comment
    (session : ref) (w : World) (s : Session.t)
    (a_early a_sleep a_danmaku : option string)
    (upload : upload_call) (publish : UploadTask.t → string) (post : post_call) :
  heap w !! session = Some s →
  reaches_early_cut output_path substitute config session w →
  video_upload_queue w = [] →
  comment_post_queue w = [] →
  TaskSave.active_comment_tasks (save w) = [] →
  (∀ t m, upload t m = Ok (publish t)) →
  (∀ i t m, post i t m = Ok true) →
  let w1 := snd (run_upload_video output_path substitute config session
                                  [a_early; a_sleep; a_danmaku] w) in
  let w2 := video_uploader_run [upload; upload] w1 in
  let w3 := snd (comment_poster_cycle post w2) in
  video_upload_queue w3 = []
  ∧ comment_post_queue w3 = []
  ∧ TaskSave.active_comment_tasks (save w3) = []
  ∧ (∃ dt, UploadTask.danmaku dt = true
           ∧ TaskSave.session_id_map (save w3) !! Session.session_id s
             = Some (publish dt))
  ∧ in_sync w3.
Proof.
  intros Hs Hreach Huq Hcq Hact Hupload Hpost. cbn zeta.
  destruct (complete_run_queues session w s a_early a_sleep a_danmaku Hs Hreach)
    as (w1 & early & dt & Hrun & Hd & Hsid & Hq1 & Hlen & [c Hc1] & Hsave1).
  rewrite Hrun. cbn [snd]. rewrite Huq in Hq1. rewrite Hcq in Hc1. cbn in Hq1, Hc1.
  assert (Hw2 : ∃ w2, video_uploader_run [upload; upload] w1 = w2
                      ∧ video_upload_queue w2 = []
                      ∧ comment_post_queue w2 = [c]
                      ∧ TaskSave.active_comment_tasks (save w2) = []
                      ∧ TaskSave.session_id_map (save w2) !! Session.session_id s
                        = Some (publish dt)).
  { destruct early as [|et [|? ?]]; [| |cbn in Hlen; lia]; cbn in Hq1.
    - cbn [video_uploader_run].
      rewrite (uploader_iter_ok upload w1 dt [] (publish dt) Hq1 (Hupload _ _)).
      eexists. split; [reflexivity|]. cbn.
      rewrite Hc1, Hsave1, Hact, Hsid. split; [done|]. split; [done|].
      split; [done|]. apply lookup_insert_eq.
    - cbn [video_uploader_run].
      rewrite (uploader_iter_ok upload w1 et [dt] (publish et) Hq1 (Hupload _ _)).
      rewrite (uploader_iter_ok upload (world_after_upload et [dt] (publish et) w1)
                 dt [] (publish dt));
        [|reflexivity|apply Hupload].
      eexists. split; [reflexivity|]. cbn.
      rewrite Hc1, Hsave1, Hact, Hsid. split; [done|]. split; [done|].
      split; [done|]. apply lookup_insert_eq. }
  destruct Hw2 as (w2 & -> & Hq2 & Hc2 & Hact2 & Hmap2).
  destruct (comment_poster_cycle_shape post w2)
    as (w2' & docs & _ & _ & Hsave & _ & Hq & _ & _ & Hu & _ & Hcycle).
  assert (Hatt : attempted w2 = [c]) by (unfold attempted; by rewrite Hact2, Hc2).
  assert (Hout : cycle_outcome post (TaskSave.session_id_map (save w2)) (attempted w2)
                 = Removed []).
  { destruct (cycle_outcome_cases post (TaskSave.session_id_map (save w2))
                (attempted w2)) as [[Hany _]|[(_ & Hnil & _)|(_ & _ & ->)]].
    - unfold any_raises in Hany. apply existsb_exists in Hany as ([i t] & _ & Hr).
      unfold attempt_raises in Hr. cbn in Hr. by rewrite Hpost in Hr.
    - by rewrite Hatt in Hnil.
    - f_equal. apply unposted_all_succeed. intros i t. unfold reports_success.
      by rewrite Hpost. }
  rewrite Hcycle, Hout. cbn [snd]. unfold in_sync. cbn.
  rewrite Hsave. cbn. split; [congruence|]. split; [done|]. split; [done|].
  split; [by exists dt|done].
Qed.

End Pipeline.

Lemma session_end_to_posted_comment_witness :
  let w1 := snd (run_upload_video sample_output_path sample_substitute sample_config
                                  0%nat [Some "early.flv"; None; Some "danmaku.mp4"]
                                  world_ended) in
  let w2 := video_uploader_run [upload_publishes; upload_publishes] w1 in
  let w3 := snd (comment_poster_cycle post_always_succeeds w2) in
  video_upload_queue w3 = []
  ∧ TaskSave.active_comment_tasks (save w3) = []
  ∧ in_sync w3.
Proof.
  destruct (session_end_to_posted_comment sample_output_path sample_substitute
              sample_config 0%nat world_ended ended_session
              (Some "early.flv") None (Some "danmaku.mp4")
              upload_publishes publish_by_variant post_always_succeeds
              eq_refl) as (H1 & _ & H2 & _ & H3).
  - vm_compute. exact I.
  - reflexivity.
  - reflexivity.
  - reflexivity.
  - reflexivity.
  - reflexivity.
  - cbn zeta. split; [exact H1|]. split; [exact H2|exact H3].
Defined.
